(** * Barangay Explorer: the query engine of [main.py] over the nested
      region / province / municipality / barangay dataset.

    The endpoints of [main.py] read one module-level object,
    [barangay.BARANGAY].  Here every endpoint takes that object as its first
    argument.  The object is a Python value: the source inspects its shape at
    run time ([isinstance]), so the model keeps the values untyped and lets
    every operation raise what Python raises on the wrong shape.

    Conventions of the model:
    - a Python [dict] is an association list in insertion order; Python keeps
      the keys of a dict pairwise distinct, which is the predicate
      [unique_keys] below, assumed only where a statement needs it;
    - dict keys are strings;
    - a Python [str] is the [string] of the bytes of its UTF-8 encoding:
      equality, concatenation and substring containment of strs are those
      of their encodings, and [len] counts the bytes that start a
      character;
    - [str.lower] is a builtin whose case tables are no part of the
      program: every definition and theorem on the search takes it as the
      parameter [lower] and so holds of whatever [str.lower] computes;
      closed examples instantiate [lower] on sample strings;
    - an [async def] endpoint is the function from its arguments to its
      return value or to the exception it raises. *)

From Stdlib Require Import List String Ascii Bool Arith ZArith Lia.
Import ListNotations.

Local Open Scope string_scope.
Local Open Scope list_scope.

(** ** Python strings *)

Module PyString.

(** [str.lower] on a str of ASCII characters: [A]..[Z] move to [a]..[z]
    and every other character stays.  It stands for the parameter [lower]
    in the closed examples, whose strings are ASCII. *)
Definition ascii_lower_char (c : ascii) : ascii :=
  let n := nat_of_ascii c in
  if Nat.leb 65 n && Nat.leb n 90 then ascii_of_nat (n + 32) else c.

Fixpoint ascii_lower (s : string) : string :=
  match s with
  | EmptyString => EmptyString
  | String c t => String (ascii_lower_char c) (ascii_lower t)
  end.

(** [str.lower] on the ASCII strs and on two Greek samples, with the
    values Python gives: a capital sigma that ends a word becomes the
    final sigma, so ["ΑΣ".lower()] is ["ας"], while ["ασ".lower()] is
    ["ασ"] itself. *)
Definition sample_lower (s : string) : string :=
  if String.eqb s "ΑΣ" then "ας" else ascii_lower s.

(** [len(s)] on a str: one per character, that is, one per byte that is
    not a UTF-8 continuation byte (128 to 191). *)
Fixpoint utf8_length (s : string) : nat :=
  match s with
  | EmptyString => 0
  | String c t =>
      let n := nat_of_ascii c in
      (if Nat.leb 128 n && Nat.leb n 191 then 0 else 1) + utf8_length t
  end.

(** [s.startswith(p)]. *)
Fixpoint starts_with (p s : string) : bool :=
  match p, s with
  | EmptyString, _ => true
  | String _ _, EmptyString => false
  | String a p', String b s' => Ascii.eqb a b && starts_with p' s'
  end.

(** [needle in hay] on two strings: [needle] occurs at some offset of
    [hay]. *)
Fixpoint contains (needle hay : string) : bool :=
  starts_with needle hay
  || match hay with
     | EmptyString => false
     | String _ t => contains needle t
     end.

(** The property [contains] decides. *)
Definition Substring (needle hay : string) : Prop :=
  exists before after, hay = (before ++ needle ++ after)%string.

End PyString.

Import PyString.

(** ** Python values and exceptions *)

Set Warnings "-register-all".

Inductive pyval : Type :=
| PyNone
| PyInt (n : Z)
| PyStr (s : string)
| PyList (items : list pyval)
| PyDict (entries : list (string * pyval)).

Inductive pyexc : Type :=
| HTTPException (status_code : nat) (detail : string)
| AttributeError
| TypeError
| KeyError.

Inductive res (A : Type) : Type :=
| Ok (a : A)
| Raise (e : pyexc).

Arguments Ok {A} a.
Arguments Raise {A} e.

Definition bind {A B} (m : res A) (k : A -> res B) : res B :=
  match m with
  | Ok a => k a
  | Raise e => Raise e
  end.

Notation "x <- m ;; k" := (bind m (fun x => k))
  (at level 61, m at next level, right associativity).
Notation "' p <- m ;; k" := (bind m (fun x => match x with p => k end))
  (at level 61, p pattern, m at next level, right associativity).

(** A [for] loop whose body updates the loop state or raises. *)
Fixpoint for_each {A S} (xs : list A) (body : A -> S -> res S) (s : S)
  : res S :=
  match xs with
  | [] => Ok s
  | x :: xs' => s' <- body x s ;; for_each xs' body s'
  end.

(** ** Dict and sequence operations *)

Section Assoc.
Context {V : Type}.

(** [d[k]] on the entries of a dict. *)
Fixpoint assoc (k : string) (d : list (string * V)) : option V :=
  match d with
  | [] => None
  | (k', v) :: d' => if String.eqb k k' then Some v else assoc k d'
  end.

Definition keys (d : list (string * V)) : list string := map fst d.
Definition values (d : list (string * V)) : list V := map snd d.

(** [k in d] on the entries of a dict. *)
Definition has_key (k : string) (d : list (string * V)) : bool :=
  existsb (String.eqb k) (keys d).

(** The invariant of a Python dict: no key twice. *)
Definition unique_keys (d : list (string * V)) : Prop := NoDup (keys d).
End Assoc.

(** [k in v] for a string [k]: key membership in a dict, element membership
    in a list, substring test in a string, [TypeError] otherwise. *)
Definition py_in (k : string) (v : pyval) : res bool :=
  match v with
  | PyDict d => Ok (has_key k d)
  | PyList l =>
      Ok (existsb (fun x => match x with
                            | PyStr t => String.eqb k t
                            | _ => false
                            end) l)
  | PyStr t => Ok (contains k t)
  | PyNone | PyInt _ => Raise TypeError
  end.

(** [v[k]] for a string [k]. *)
Definition py_getitem (v : pyval) (k : string) : res pyval :=
  match v with
  | PyDict d =>
      match assoc k d with
      | Some x => Ok x
      | None => Raise KeyError
      end
  | _ => Raise TypeError
  end.

(** [v.keys()], [v.values()], [v.items()]: only a dict has them. *)
Definition py_keys (v : pyval) : res (list string) :=
  match v with
  | PyDict d => Ok (keys d)
  | _ => Raise AttributeError
  end.

Definition py_values (v : pyval) : res (list pyval) :=
  match v with
  | PyDict d => Ok (values d)
  | _ => Raise AttributeError
  end.

Definition py_items (v : pyval) : res (list (string * pyval)) :=
  match v with
  | PyDict d => Ok d
  | _ => Raise AttributeError
  end.

(** [len(v)]. *)
Definition py_len (v : pyval) : res nat :=
  match v with
  | PyDict d => Ok (List.length d)
  | PyList l => Ok (List.length l)
  | PyStr s => Ok (utf8_length s)
  | PyNone | PyInt _ => Raise TypeError
  end.

(** [sum(len(x) for x in vs)]: the running total starts at 0. *)
Definition sum_len (vs : list pyval) : res nat :=
  for_each vs (fun v total => n <- py_len v ;; Ok (total + n)) 0.

(** ** The endpoints of [main.py]

    [B] stands for [barangay.BARANGAY] throughout. *)

Record hit : Type := mk_hit {
  barangay : string;
  municipality : string;
  province : string;
  region : string
}.

Record search_response : Type := mk_search_response {
  query : string;
  results : list hit;
  count : nat
}.

Record stats : Type := mk_stats {
  total_regions : nat;
  total_provinces : nat;
  total_municipalities : nat;
  total_barangays : nat;
  data_source : string
}.

Definition region_not_found (region_name : string) : pyexc :=
  HTTPException 404 ("Region '" ++ region_name ++ "' not found")%string.

Definition province_not_found (province_name region_name : string) : pyexc :=
  HTTPException 404
    ("Province '" ++ province_name ++ "' not found in region '"
       ++ region_name ++ "'")%string.

Definition municipality_not_found (municipality_name province_name : string)
  : pyexc :=
  HTTPException 404
    ("Municipality '" ++ municipality_name ++ "' not found in province '"
       ++ province_name ++ "'")%string.

Definition no_matches (barangay_name : string) : pyexc :=
  HTTPException 404
    ("No barangays found containing '" ++ barangay_name ++ "'")%string.

(** [raise e] when [cond] holds, in the middle of a body. *)
Definition raise_if (cond : bool) (e : pyexc) : res unit :=
  if cond then Raise e else Ok tt.

Definition get_regions (B : pyval) : res (list string) :=
  py_keys B.

Definition get_provinces (B : pyval) (region_name : string)
  : res (list string) :=
  found <- py_in region_name B ;;
  _ <- raise_if (negb found) (region_not_found region_name) ;;
  provinces <- py_getitem B region_name ;;
  py_keys provinces.

Definition get_municipalities (B : pyval) (region_name province_name : string)
  : res (list string) :=
  found <- py_in region_name B ;;
  _ <- raise_if (negb found) (region_not_found region_name) ;;
  provinces <- py_getitem B region_name ;;
  found <- py_in province_name provinces ;;
  _ <- raise_if (negb found) (province_not_found province_name region_name) ;;
  provinces <- py_getitem B region_name ;;
  municipalities <- py_getitem provinces province_name ;;
  py_keys municipalities.

Definition get_barangays (B : pyval)
    (region_name province_name municipality_name : string) : res pyval :=
  found <- py_in region_name B ;;
  _ <- raise_if (negb found) (region_not_found region_name) ;;
  provinces <- py_getitem B region_name ;;
  found <- py_in province_name provinces ;;
  _ <- raise_if (negb found) (province_not_found province_name region_name) ;;
  provinces <- py_getitem B region_name ;;
  municipalities <- py_getitem provinces province_name ;;
  found <- py_in municipality_name municipalities ;;
  _ <- raise_if (negb found)
         (municipality_not_found municipality_name province_name) ;;
  provinces <- py_getitem B region_name ;;
  municipalities <- py_getitem provinces province_name ;;
  py_getitem municipalities municipality_name.

Section SearchEndpoint.

(** [str.lower], as Python computes it. *)
Variable lower : string -> string.

(** [[b for b in barangays if barangay_name.lower() in b.lower()]]: an
    element that is not a string has no [lower] and raises. *)
Fixpoint matching_barangays (barangay_name : string) (barangays : list pyval)
  : res (list string) :=
  match barangays with
  | [] => Ok []
  | PyStr b :: rest =>
      tail <- matching_barangays barangay_name rest ;;
      Ok (if contains (lower barangay_name) (lower b) then b :: tail
          else tail)
  | _ :: _ => Raise AttributeError
  end.

(** The body of the innermost [for] of [search_barangay], for one
    municipality. *)
Definition search_municipality (barangay_name region_name province_name : string)
    (entry : string * pyval) (results : list hit) : res (list hit) :=
  let '(municipality_name, barangays) := entry in
  match barangays with
  | PyList bs =>
      matching <- matching_barangays barangay_name bs ;;
      Ok (results
            ++ map (fun b => mk_hit b municipality_name province_name
                               region_name) matching)
  | _ => Ok results
  end.

Definition search_province (barangay_name region_name : string)
    (entry : string * pyval) (results : list hit) : res (list hit) :=
  let '(province_name, municipalities) := entry in
  match municipalities with
  | PyDict ms =>
      for_each ms
        (search_municipality barangay_name region_name province_name) results
  | _ => Ok results
  end.

Definition search_region (barangay_name : string)
    (entry : string * pyval) (results : list hit) : res (list hit) :=
  let '(region_name, provinces) := entry in
  items <- py_items provinces ;;
  for_each items (search_province barangay_name region_name) results.

(** Lines 66 to 80: the list [results] when the loops are over. *)
Definition collect_results (B : pyval) (barangay_name : string)
  : res (list hit) :=
  items <- py_items B ;;
  for_each items (search_region barangay_name) [].

Definition search_barangay (B : pyval) (barangay_name : string)
  : res search_response :=
  results <- collect_results B barangay_name ;;
  match results with
  | [] => Raise (no_matches barangay_name)
  | _ :: _ =>
      Ok (mk_search_response barangay_name results (List.length results))
  end.

End SearchEndpoint.

(** The loops of [get_stats]; the state is
    [(total_municipalities, total_barangays)]. *)
Definition count_municipality (barangays : pyval) (totals : nat * nat)
  : res (nat * nat) :=
  let '(tm, tb) := totals in
  match barangays with
  | PyList bs => Ok (tm, tb + List.length bs)
  | _ => Ok (tm, tb)
  end.

Definition count_province (municipalities : pyval) (totals : nat * nat)
  : res (nat * nat) :=
  let '(tm, tb) := totals in
  match municipalities with
  | PyDict ms => for_each (values ms) count_municipality (tm + List.length ms, tb)
  | _ => Ok (tm, tb)
  end.

Definition count_region (provinces : pyval) (totals : nat * nat)
  : res (nat * nat) :=
  vs <- py_values provinces ;;
  for_each vs count_province totals.

Definition psgc_source : string :=
  "Philippines Standard Geographic Code (PSGC) 2025".

Definition get_stats (B : pyval) : res stats :=
  n_regions <- py_len B ;;
  vs <- py_values B ;;
  n_provinces <- sum_len vs ;;
  vs <- py_values B ;;
  ' (n_municipalities, n_barangays) <- for_each vs count_region (0, 0) ;;
  Ok (mk_stats n_regions n_provinces n_municipalities n_barangays psgc_source).

(** ** The Dataset of the specification

    Region -> province -> municipality -> sequence of barangay names, each
    mapping in its stored order. *)

Definition Barangays : Type := list string.
Definition Municipalities : Type := list (string * Barangays).
Definition Provinces : Type := list (string * Municipalities).
Definition Dataset : Type := list (string * Provinces).

(** The Python object a Dataset is held as. *)
Definition py_of_barangays (bs : Barangays) : pyval :=
  PyList (map PyStr bs).

Definition py_of_municipalities (ms : Municipalities) : pyval :=
  PyDict (map (fun e => (fst e, py_of_barangays (snd e))) ms).

Definition py_of_provinces (ps : Provinces) : pyval :=
  PyDict (map (fun e => (fst e, py_of_municipalities (snd e))) ps).

Definition py_of_dataset (D : Dataset) : pyval :=
  PyDict (map (fun e => (fst e, py_of_provinces (snd e))) D).

(** Every level of a Dataset has pairwise distinct keys. *)
Definition dataset_keys_unique (D : Dataset) : Prop :=
  unique_keys D
  /\ Forall (fun r =>
       unique_keys (snd r)
       /\ Forall (fun p => unique_keys (snd p)) (snd r)) D.

(** Every barangay occurrence with its ancestry, in traversal order:
    regions, then provinces, then municipalities, then the barangay list. *)
Definition hits_of_municipality (r p : string) (e : string * Barangays)
  : list hit :=
  map (fun b => mk_hit b (fst e) p r) (snd e).

Definition hits_of_province (r : string) (e : string * Municipalities)
  : list hit :=
  flat_map (hits_of_municipality r (fst e)) (snd e).

Definition hits_of_region (e : string * Provinces) : list hit :=
  flat_map (hits_of_province (fst e)) (snd e).

Definition occurrences (D : Dataset) : list hit :=
  flat_map hits_of_region D.

(** The match predicate of the search, as a property and as the test the
    code runs. *)
Definition Matches (lower : string -> string) (q : string) (h : hit)
  : Prop :=
  Substring (lower q) (lower (barangay h)).

Definition matches (lower : string -> string) (q : string) (h : hit)
  : bool :=
  contains (lower q) (lower (barangay h)).

(** The counts of the specification. *)
Definition sum_over {A} (f : A -> nat) (l : list A) : nat :=
  list_sum (map f l).

Definition region_count (D : Dataset) : nat := List.length D.

Definition province_count (D : Dataset) : nat :=
  sum_over (fun r => List.length (snd r)) D.

Definition municipality_count (D : Dataset) : nat :=
  sum_over (fun r => sum_over (fun p => List.length (snd p)) (snd r)) D.

Definition barangay_count (D : Dataset) : nat :=
  sum_over (fun r =>
    sum_over (fun p =>
      sum_over (fun m => List.length (snd m)) (snd p)) (snd r)) D.

(** ** Objects the [isinstance] guards are written for

    [guarded_shape B]: [B] is a dict, every region is a dict, and every list
    found where a barangay list is expected holds strings only.  What sits
    in the place of a province's municipalities or of a municipality's
    barangays is otherwise arbitrary. *)

Definition is_str (v : pyval) : bool :=
  match v with PyStr _ => true | _ => false end.

Definition barangays_guarded (v : pyval) : bool :=
  match v with PyList bs => forallb is_str bs | _ => true end.

Definition municipalities_guarded (v : pyval) : bool :=
  match v with
  | PyDict ms => forallb barangays_guarded (values ms)
  | _ => true
  end.

Definition provinces_guarded (v : pyval) : bool :=
  match v with
  | PyDict ps => forallb municipalities_guarded (values ps)
  | _ => false
  end.

Definition guarded_shape (B : pyval) : bool :=
  match B with
  | PyDict rs => forallb provinces_guarded (values rs)
  | _ => false
  end.

(** [regions_are_dicts B]: all that [get_stats] needs. *)
Definition is_dict (v : pyval) : bool :=
  match v with PyDict _ => true | _ => false end.

Definition regions_are_dicts (B : pyval) : bool :=
  match B with
  | PyDict rs => forallb is_dict (values rs)
  | _ => false
  end.

(** The Dataset left when every subtree the guards skip is removed. *)
Definition strings_of (bs : list pyval) : list string :=
  flat_map (fun v => match v with PyStr s => [s] | _ => [] end) bs.

Definition prune_municipalities (ms : list (string * pyval)) : Municipalities :=
  flat_map (fun e => match snd e with
                     | PyList bs => [(fst e, strings_of bs)]
                     | _ => []
                     end) ms.

Definition prune_provinces (ps : list (string * pyval)) : Provinces :=
  flat_map (fun e => match snd e with
                     | PyDict ms => [(fst e, prune_municipalities ms)]
                     | _ => []
                     end) ps.

Definition prune_regions (rs : list (string * pyval)) : Dataset :=
  flat_map (fun e => match snd e with
                     | PyDict ps => [(fst e, prune_provinces ps)]
                     | _ => []
                     end) rs.

Definition prune (B : pyval) : Dataset :=
  match B with
  | PyDict rs => prune_regions rs
  | _ => []
  end.

(** The counts [get_stats] reaches on such an object. *)
Definition entries_of (v : pyval) : list (string * pyval) :=
  match v with PyDict d => d | _ => [] end.

Definition len_if_dict (v : pyval) : nat := List.length (entries_of v).

Definition len_if_list (v : pyval) : nat :=
  match v with PyList bs => List.length bs | _ => 0 end.

Definition municipalities_in (v : pyval) : nat := len_if_dict v.

Definition barangays_in (v : pyval) : nat :=
  sum_over len_if_list (values (entries_of v)).

Definition guarded_province_count (B : pyval) : nat :=
  sum_over len_if_dict (values (entries_of B)).

Definition guarded_municipality_count (B : pyval) : nat :=
  sum_over (fun r => sum_over municipalities_in (values (entries_of r)))
    (values (entries_of B)).

Definition guarded_barangay_count (B : pyval) : nat :=
  sum_over (fun r => sum_over barangays_in (values (entries_of r)))
    (values (entries_of B)).

(** The client of the specification's counting property: every triple that
    [get_regions], [get_provinces] and [get_municipalities] enumerate is
    looked up with [get_barangays], and the lengths are added. *)
Definition enumerated_municipality (B : pyval) (r p m : string) (total : nat)
  : res nat :=
  bs <- get_barangays B r p m ;;
  n <- py_len bs ;;
  Ok (total + n).

Definition enumerated_province (B : pyval) (r p : string) (total : nat)
  : res nat :=
  ms <- get_municipalities B r p ;;
  for_each ms (enumerated_municipality B r p) total.

Definition enumerated_region (B : pyval) (r : string) (total : nat)
  : res nat :=
  ps <- get_provinces B r ;;
  for_each ps (enumerated_province B r) total.

Definition enumerated_barangay_total (B : pyval) : res nat :=
  rs <- get_regions B ;;
  for_each rs (enumerated_region B) 0.

(** ** Sample objects *)

(** The concrete scenario of the specification. *)
Definition scenario : Dataset :=
  [("RegionA",
    [("ProvinceX",
      [("MunicipalityY", ["North Poblacion"; "South Poblacion"])])])].

(** Two regions, a name that occurs twice in one list, mixed case. *)
Definition two_regions : Dataset :=
  [("NCR",
    [("Metro Manila",
      [("Makati", ["Poblacion"; "Bel-Air"; "Poblacion"]);
       ("Taguig", ["Ususan"])])]);
   ("Region IV-A",
    [("Laguna", [("Calamba", ["MAKILING"; "Real"])]);
     ("Cavite", [])])].

(** One barangay, named by the two Greek letters alpha and sigma. *)
Definition final_sigma : Dataset :=
  [("R", [("P", [("M", ["ασ"])])])].

(** A province whose value is [None], and nothing else. *)
Definition skipped_province : pyval :=
  PyDict [("R", PyDict [("P", PyNone)])].

(** A province that is not a dict, a municipality that is not a list, and
    one well-formed municipality. *)
Definition partly_malformed : pyval :=
  PyDict
    [("R",
      PyDict
        [("P", PyNone);
         ("Q", PyDict [("M", PyInt 3);
                       ("N", PyList [PyStr "Poblacion"; PyStr "Bagong Silang"])])])].

(** ** Further clients and shapes

    The other counts of [get_stats], recomputed through the lookups. *)
Definition enumerated_province_total (B : pyval) : res nat :=
  rs <- get_regions B ;;
  for_each rs
    (fun r total => ps <- get_provinces B r ;; Ok (total + List.length ps)) 0.

Definition enumerated_municipality_in_region (B : pyval) (r : string)
    (total : nat) : res nat :=
  ps <- get_provinces B r ;;
  for_each ps
    (fun p total =>
       ms <- get_municipalities B r p ;; Ok (total + List.length ms)) total.

Definition enumerated_municipality_total (B : pyval) : res nat :=
  rs <- get_regions B ;;
  for_each rs (enumerated_municipality_in_region B) 0.

(** Values [len] accepts. *)
Definition has_len (v : pyval) : bool :=
  match v with
  | PyNone | PyInt _ => false
  | PyStr _ | PyList _ | PyDict _ => true
  end.

(** What [get_stats] raises on an object whose regions are not all dicts:
    [len] fails first (lines 90 and 91), [values] after it (line 95). *)
Definition stats_fault (B : pyval) : pyexc :=
  match B with
  | PyDict rs =>
      if forallb has_len (values rs) then AttributeError else TypeError
  | _ => if has_len B then AttributeError else TypeError
  end.

(** ** Facts about strings *)

Section StringFacts.

Lemma starts_with_spec (p s : string) :
  starts_with p s = true <-> exists t, s = (p ++ t)%string.
Proof.
  revert s; induction p as [|a p IH]; intros s; simpl.
  - split; [intros _; now exists s | reflexivity].
  - destruct s as [|b s]; simpl.
    + split; [discriminate | intros [t Ht]; discriminate].
    + rewrite andb_true_iff, Ascii.eqb_eq, IH. split.
      * intros [-> [t ->]]. now exists t.
      * intros [t Ht]. injection Ht as -> ->. split; [reflexivity | now exists t].
Qed.

Lemma contains_unfold (needle hay : string) :
  contains needle hay =
  starts_with needle hay
  || match hay with
     | EmptyString => false
     | String _ t => contains needle t
     end.
Proof. destruct hay; reflexivity. Qed.

Lemma contains_spec (needle hay : string) :
  contains needle hay = true <-> Substring needle hay.
Proof.
  unfold Substring. split.
  - induction hay as [|c hay IH]; rewrite contains_unfold, orb_true_iff.
    + intros [H | H]; [| discriminate].
      apply starts_with_spec in H as [t ->]. now exists EmptyString, t.
    + intros [H | H].
      * apply starts_with_spec in H as [t ->]. now exists EmptyString, t.
      * destruct (IH H) as (b & a & ->). now exists (String c b), a.
  - intros (b & a & ->). induction b as [|c b IH]; simpl append.
    + rewrite contains_unfold, orb_true_iff. left.
      apply starts_with_spec. now exists a.
    + rewrite contains_unfold, orb_true_iff. now right.
Qed.

Lemma contains_empty (hay : string) : contains EmptyString hay = true.
Proof. now rewrite contains_unfold. Qed.

End StringFacts.

(** ** The loops of [search_barangay] *)

Section SearchLoops.

Variable lower : string -> string.
Variable q : string.

Lemma matching_barangays_guarded (bs : list pyval) :
  forallb is_str bs = true ->
  matching_barangays lower q bs
  = Ok (filter (fun b => contains (lower q) (lower b)) (strings_of bs)).
Proof.
  induction bs as [|v bs IH]; simpl; [reflexivity|].
  destruct v; simpl; try discriminate.
  intros H. rewrite (IH H). simpl.
  now destruct (contains (lower q) (lower s)).
Qed.

Lemma hits_filter_map (r p m : string) (bs : list string) :
  map (fun b => mk_hit b m p r)
    (filter (fun b => contains (lower q) (lower b)) bs)
  = filter (matches lower q) (map (fun b => mk_hit b m p r) bs).
Proof.
  induction bs as [|b bs IH]; simpl; [reflexivity|].
  rewrite <- IH. unfold matches; simpl.
  now destruct (contains (lower q) (lower b)).
Qed.

Lemma search_municipalities_guarded (r p : string)
    (ms : list (string * pyval)) :
  forallb barangays_guarded (values ms) = true ->
  forall acc,
    for_each ms (search_municipality lower q r p) acc
    = Ok (acc ++ filter (matches lower q)
                   (flat_map (hits_of_municipality r p)
                      (prune_municipalities ms))).
Proof.
  induction ms as [|[m v] ms IH]; simpl; intros H acc.
  - now rewrite app_nil_r.
  - apply andb_true_iff in H as [Hv Hms].
    destruct v; simpl; try (now apply IH).
    simpl in Hv. rewrite (matching_barangays_guarded _ Hv). simpl.
    rewrite (IH Hms), filter_app, <- app_assoc.
    unfold hits_of_municipality at 2; simpl.
    now rewrite hits_filter_map.
Qed.

Lemma search_provinces_guarded (r : string) (ps : list (string * pyval)) :
  forallb municipalities_guarded (values ps) = true ->
  forall acc,
    for_each ps (search_province lower q r) acc
    = Ok (acc ++ filter (matches lower q)
                   (flat_map (hits_of_province r) (prune_provinces ps))).
Proof.
  induction ps as [|[p v] ps IH]; simpl; intros H acc.
  - now rewrite app_nil_r.
  - apply andb_true_iff in H as [Hv Hps].
    destruct v; simpl; try (now apply IH).
    simpl in Hv. rewrite (search_municipalities_guarded _ _ _ Hv). simpl.
    now rewrite (IH Hps), filter_app, <- app_assoc.
Qed.

Lemma search_regions_guarded (rs : list (string * pyval)) :
  forallb provinces_guarded (values rs) = true ->
  forall acc,
    for_each rs (search_region lower q) acc
    = Ok (acc ++ filter (matches lower q)
                   (flat_map hits_of_region (prune_regions rs))).
Proof.
  induction rs as [|[r v] rs IH]; simpl; intros H acc.
  - now rewrite app_nil_r.
  - apply andb_true_iff in H as [Hv Hrs].
    destruct v; simpl in Hv; try discriminate. simpl.
    rewrite (search_provinces_guarded _ _ Hv). simpl.
    now rewrite (IH Hrs), filter_app, <- app_assoc.
Qed.

Lemma collect_results_guarded (B : pyval) :
  guarded_shape B = true ->
  collect_results lower B q = Ok (filter (matches lower q) (occurrences (prune B))).
Proof.
  destruct B; simpl; try discriminate.
  intros H. unfold collect_results. simpl.
  now rewrite (search_regions_guarded _ H).
Qed.

End SearchLoops.

(** ** A Dataset is an object of guarded shape, and pruning leaves it as
    it is *)

Section Embedding.

Variable lower : string -> string.

Lemma strings_of_strs (bs : Barangays) : strings_of (map PyStr bs) = bs.
Proof. induction bs; simpl; congruence. Qed.

Lemma prune_py_of_municipalities (ms : Municipalities) :
  prune_municipalities (map (fun e => (fst e, py_of_barangays (snd e))) ms)
  = ms.
Proof.
  induction ms as [|[m bs] ms IH]; simpl in *; [reflexivity|].
  now rewrite strings_of_strs, IH.
Qed.

Lemma prune_py_of_provinces (ps : Provinces) :
  prune_provinces (map (fun e => (fst e, py_of_municipalities (snd e))) ps)
  = ps.
Proof.
  induction ps as [|[p ms] ps IH]; simpl in *; [reflexivity|].
  now rewrite (prune_py_of_municipalities ms), IH.
Qed.

Lemma prune_py_of_dataset (D : Dataset) : prune (py_of_dataset D) = D.
Proof.
  induction D as [|[r ps] D IH]; simpl in *; [reflexivity|].
  now rewrite (prune_py_of_provinces ps), IH.
Qed.

Lemma barangays_guarded_py (bs : Barangays) :
  barangays_guarded (py_of_barangays bs) = true.
Proof. induction bs; simpl in *; auto. Qed.

Lemma municipalities_guarded_py (ms : Municipalities) :
  municipalities_guarded (py_of_municipalities ms) = true.
Proof.
  induction ms as [|[m bs] ms IH]; [reflexivity|].
  pose proof (barangays_guarded_py bs) as Hb.
  simpl in *. now rewrite Hb.
Qed.

Lemma provinces_guarded_py (ps : Provinces) :
  provinces_guarded (py_of_provinces ps) = true.
Proof.
  induction ps as [|[p ms] ps IH]; [reflexivity|].
  pose proof (municipalities_guarded_py ms) as Hm.
  simpl in *. now rewrite Hm.
Qed.

Lemma guarded_py_of_dataset (D : Dataset) :
  guarded_shape (py_of_dataset D) = true.
Proof.
  induction D as [|[r ps] D IH]; [reflexivity|].
  pose proof (provinces_guarded_py ps) as Hp.
  simpl in *. now rewrite Hp.
Qed.

Lemma collect_results_dataset (D : Dataset) (q : string) :
  collect_results lower (py_of_dataset D) q
  = Ok (filter (matches lower q) (occurrences D)).
Proof.
  rewrite collect_results_guarded by apply guarded_py_of_dataset.
  now rewrite prune_py_of_dataset.
Qed.

End Embedding.

(** ** The loops of [get_stats] *)

Section StatsLoops.

Lemma sum_over_cons {A} (f : A -> nat) (x : A) (l : list A) :
  sum_over f (x :: l) = f x + sum_over f l.
Proof. reflexivity. Qed.

Lemma sum_over_map {A C} (f : C -> nat) (g : A -> C) (l : list A) :
  sum_over f (map g l) = sum_over (fun x => f (g x)) l.
Proof. unfold sum_over. now rewrite map_map. Qed.

Lemma sum_over_ext {A} (f g : A -> nat) (l : list A) :
  (forall x, In x l -> f x = g x) -> sum_over f l = sum_over g l.
Proof.
  intros H. unfold sum_over. f_equal. now apply map_ext_in.
Qed.

Lemma sum_over_app {A} (f : A -> nat) (l l' : list A) :
  sum_over f (l ++ l') = sum_over f l + sum_over f l'.
Proof. unfold sum_over. now rewrite map_app, list_sum_app. Qed.

Lemma sum_len_dicts (vs : list pyval) :
  forallb is_dict vs = true ->
  forall total,
    for_each vs (fun v total => n <- py_len v ;; Ok (total + n)) total
    = Ok (total + sum_over len_if_dict vs).
Proof.
  induction vs as [|v vs IH]; simpl; intros H total.
  - f_equal. unfold sum_over; simpl. lia.
  - apply andb_true_iff in H as [Hv Hvs].
    destruct v; try discriminate. simpl.
    rewrite (IH Hvs), sum_over_cons. f_equal. unfold len_if_dict; simpl. lia.
Qed.

Lemma count_municipalities_loop (vs : list pyval) (tm tb : nat) :
  for_each vs count_municipality (tm, tb)
  = Ok (tm, tb + sum_over len_if_list vs).
Proof.
  revert tb. induction vs as [|v vs IH]; simpl; intros tb.
  - do 2 f_equal. unfold sum_over; simpl. lia.
  - rewrite sum_over_cons.
    destruct v; simpl; rewrite IH; do 2 f_equal; lia.
Qed.

Lemma count_provinces_loop (vs : list pyval) (tm tb : nat) :
  for_each vs count_province (tm, tb)
  = Ok (tm + sum_over municipalities_in vs, tb + sum_over barangays_in vs).
Proof.
  revert tm tb. induction vs as [|v vs IH]; simpl; intros tm tb.
  - unfold sum_over; simpl. do 2 f_equal; lia.
  - rewrite !sum_over_cons.
    destruct v; simpl;
      try (rewrite IH; unfold municipalities_in, len_if_dict, barangays_in;
           simpl; unfold sum_over at 3 6; simpl; do 2 f_equal; lia).
    rewrite count_municipalities_loop. simpl. rewrite IH.
    unfold municipalities_in, len_if_dict, barangays_in; simpl.
    f_equal. f_equal; lia.
Qed.

Lemma count_regions_loop (vs : list pyval) :
  forallb is_dict vs = true ->
  forall tm tb,
    for_each vs count_region (tm, tb)
    = Ok (tm + sum_over
                 (fun r => sum_over municipalities_in (values (entries_of r)))
                 vs,
          tb + sum_over
                 (fun r => sum_over barangays_in (values (entries_of r)))
                 vs).
Proof.
  induction vs as [|v vs IH]; simpl; intros H tm tb.
  - unfold sum_over; simpl. do 2 f_equal; lia.
  - apply andb_true_iff in H as [Hv Hvs].
    destruct v; try discriminate.
    unfold count_region at 1. simpl.
    rewrite count_provinces_loop. simpl. rewrite (IH Hvs), !sum_over_cons.
    simpl. f_equal. f_equal; lia.
Qed.

Lemma get_stats_guarded (B : pyval) :
  regions_are_dicts B = true ->
  get_stats B
  = Ok (mk_stats (List.length (entries_of B))
          (guarded_province_count B)
          (guarded_municipality_count B)
          (guarded_barangay_count B)
          psgc_source).
Proof.
  destruct B; simpl; try discriminate.
  intros H. unfold get_stats, sum_len. simpl.
  rewrite (sum_len_dicts _ H). simpl.
  rewrite (count_regions_loop _ H). reflexivity.
Qed.

End StatsLoops.

(** ** Dict lookups *)

Section Lookups.

Context {V : Type}.

Lemma has_key_In (k : string) (d : list (string * V)) :
  has_key k d = true <-> In k (keys d).
Proof.
  unfold has_key. rewrite existsb_exists. split.
  - intros (x & Hx & E). apply String.eqb_eq in E. now subst.
  - intros H. exists k. split; [exact H | apply String.eqb_refl].
Qed.

Lemma has_key_false (k : string) (d : list (string * V)) :
  has_key k d = false <-> ~ In k (keys d).
Proof.
  rewrite <- has_key_In. now destruct (has_key k d).
Qed.

Lemma assoc_None (k : string) (d : list (string * V)) :
  assoc k d = None <-> ~ In k (keys d).
Proof.
  induction d as [|[k' v] d IH]; simpl.
  - tauto.
  - destruct (String.eqb_spec k k') as [-> | Hne].
    + split; [discriminate | intros H; exfalso; apply H; now left].
    + rewrite IH. split.
      * intros H [E | H']; [now apply Hne | now apply H].
      * intros H H'. apply H. now right.
Qed.

Lemma assoc_has_key (k : string) (d : list (string * V)) :
  has_key k d = match assoc k d with Some _ => true | None => false end.
Proof.
  destruct (assoc k d) eqn:E.
  - apply has_key_In. destruct (has_key k d) eqn:Hk.
    + now apply has_key_In.
    + apply has_key_false, assoc_None in Hk. congruence.
  - apply has_key_false. now apply assoc_None.
Qed.

Lemma assoc_In (k : string) (v : V) (d : list (string * V)) :
  assoc k d = Some v -> In (k, v) d.
Proof.
  induction d as [|[k' v'] d IH]; simpl; [discriminate|].
  destruct (String.eqb_spec k k') as [-> | Hne].
  - intros [= ->]. now left.
  - intros H. right. now apply IH.
Qed.

Lemma assoc_unique (k : string) (v : V) (d : list (string * V)) :
  unique_keys d -> In (k, v) d -> assoc k d = Some v.
Proof.
  unfold unique_keys.
  induction d as [|[k' v'] d IH]; simpl; [tauto|].
  intros Hnd [E | Hin].
  - injection E as -> ->. now rewrite String.eqb_refl.
  - inversion Hnd as [|? ? Hnotin Hnd']; subst.
    destruct (String.eqb_spec k k') as [-> | Hne].
    + exfalso. apply Hnotin. change k' with (fst (k', v)).
      now apply in_map.
    + now apply IH.
Qed.

Lemma assoc_map {W} (g : V -> W) (k : string) (d : list (string * V)) :
  assoc k (map (fun e => (fst e, g (snd e))) d) = option_map g (assoc k d).
Proof.
  induction d as [|[k' v] d IH]; simpl; [reflexivity|].
  now destruct (String.eqb k k').
Qed.

Lemma keys_map {W} (g : V -> W) (d : list (string * V)) :
  keys (map (fun e => (fst e, g (snd e))) d) = keys d.
Proof. unfold keys. rewrite map_map. reflexivity. Qed.

Lemma values_map {W} (g : V -> W) (d : list (string * V)) :
  values (map (fun e => (fst e, g (snd e))) d) = map (fun e => g (snd e)) d.
Proof. unfold values. rewrite map_map. reflexivity. Qed.

Lemma has_key_map {W} (g : V -> W) (k : string) (d : list (string * V)) :
  has_key k (map (fun e => (fst e, g (snd e))) d) = has_key k d.
Proof. unfold has_key. now rewrite keys_map. Qed.

End Lookups.

(** ** The endpoints on a Dataset *)

Section OnDataset.

Variable D : Dataset.

Lemma get_regions_dataset : get_regions (py_of_dataset D) = Ok (keys D).
Proof. unfold get_regions; simpl. now rewrite keys_map. Qed.

Lemma get_provinces_dataset (r : string) :
  get_provinces (py_of_dataset D) r
  = match assoc r D with
    | None => Raise (region_not_found r)
    | Some ps => Ok (keys ps)
    end.
Proof.
  unfold get_provinces; simpl.
  rewrite has_key_map, assoc_has_key, assoc_map.
  destruct (assoc r D) as [ps|]; simpl; [|reflexivity].
  now rewrite keys_map.
Qed.

Lemma get_municipalities_dataset (r p : string) :
  get_municipalities (py_of_dataset D) r p
  = match assoc r D with
    | None => Raise (region_not_found r)
    | Some ps =>
        match assoc p ps with
        | None => Raise (province_not_found p r)
        | Some ms => Ok (keys ms)
        end
    end.
Proof.
  unfold get_municipalities; simpl.
  rewrite has_key_map, assoc_has_key, assoc_map.
  destruct (assoc r D) as [ps|]; simpl; [|reflexivity].
  rewrite has_key_map, assoc_has_key, assoc_map.
  destruct (assoc p ps) as [ms|]; simpl; [|reflexivity].
  now rewrite keys_map.
Qed.

Lemma get_barangays_dataset (r p m : string) :
  get_barangays (py_of_dataset D) r p m
  = match assoc r D with
    | None => Raise (region_not_found r)
    | Some ps =>
        match assoc p ps with
        | None => Raise (province_not_found p r)
        | Some ms =>
            match assoc m ms with
            | None => Raise (municipality_not_found m p)
            | Some bs => Ok (py_of_barangays bs)
            end
        end
    end.
Proof.
  unfold get_barangays; simpl.
  rewrite has_key_map, assoc_has_key, assoc_map.
  destruct (assoc r D) as [ps|]; simpl; [|reflexivity].
  rewrite has_key_map, assoc_has_key, assoc_map.
  destruct (assoc p ps) as [ms|]; simpl; [|reflexivity].
  rewrite has_key_map, assoc_has_key, assoc_map.
  now destruct (assoc m ms) as [bs|].
Qed.

Lemma regions_are_dicts_dataset : regions_are_dicts (py_of_dataset D) = true.
Proof.
  simpl. rewrite values_map, forallb_forall.
  intros v Hv. apply in_map_iff in Hv as (e & <- & _). reflexivity.
Qed.

Lemma guarded_province_count_dataset :
  guarded_province_count (py_of_dataset D) = province_count D.
Proof.
  unfold guarded_province_count, province_count; simpl.
  rewrite values_map, sum_over_map. apply sum_over_ext; intros r _.
  unfold len_if_dict; simpl. apply length_map.
Qed.

Lemma guarded_municipality_count_dataset :
  guarded_municipality_count (py_of_dataset D) = municipality_count D.
Proof.
  unfold guarded_municipality_count, municipality_count; simpl.
  rewrite values_map, sum_over_map. apply sum_over_ext; intros r _. simpl.
  rewrite values_map, sum_over_map. apply sum_over_ext; intros p _.
  unfold municipalities_in, len_if_dict; simpl. apply length_map.
Qed.

Lemma guarded_barangay_count_dataset :
  guarded_barangay_count (py_of_dataset D) = barangay_count D.
Proof.
  unfold guarded_barangay_count, barangay_count; simpl.
  rewrite values_map, sum_over_map. apply sum_over_ext; intros r _. simpl.
  rewrite values_map, sum_over_map. apply sum_over_ext; intros p _.
  unfold barangays_in; simpl.
  rewrite values_map, sum_over_map. apply sum_over_ext; intros m _.
  simpl. apply length_map.
Qed.

Lemma get_stats_dataset :
  get_stats (py_of_dataset D)
  = Ok (mk_stats (region_count D) (province_count D) (municipality_count D)
          (barangay_count D) psgc_source).
Proof.
  rewrite get_stats_guarded by apply regions_are_dicts_dataset.
  rewrite guarded_province_count_dataset, guarded_municipality_count_dataset,
    guarded_barangay_count_dataset.
  unfold region_count; simpl. now rewrite length_map.
Qed.

End OnDataset.

(** ** Counting the occurrences *)

Section Counting.

Variable lower : string -> string.

Lemma length_flat_map_sum {A C} (f : A -> list C) (l : list A) :
  List.length (flat_map f l) = sum_over (fun x => List.length (f x)) l.
Proof.
  induction l as [|x l IH]; simpl; [reflexivity|].
  now rewrite length_app, IH.
Qed.

Lemma length_occurrences (D : Dataset) :
  List.length (occurrences D) = barangay_count D.
Proof.
  unfold occurrences, barangay_count.
  rewrite length_flat_map_sum. apply sum_over_ext; intros r _.
  unfold hits_of_region.
  rewrite length_flat_map_sum. apply sum_over_ext; intros p _.
  unfold hits_of_province.
  rewrite length_flat_map_sum. apply sum_over_ext; intros m _.
  unfold hits_of_municipality. apply length_map.
Qed.

Lemma filter_all {A} (f : A -> bool) (l : list A) :
  (forall x, In x l -> f x = true) -> filter f l = l.
Proof.
  induction l as [|x l IH]; simpl; intros H; [reflexivity|].
  rewrite (H x) by now left.
  f_equal. apply IH. intros y Hy. apply H. now right.
Qed.

Lemma filter_nil_iff {A} (f : A -> bool) (l : list A) :
  filter f l = [] <-> forall x, In x l -> f x = false.
Proof.
  induction l as [|x l IH]; simpl.
  - split; [intros _ y [] | reflexivity].
  - destruct (f x) eqn:E; split.
    + discriminate.
    + intros H. specialize (H x (or_introl eq_refl)). congruence.
    + intros H y [<- | Hy]; [exact E | now apply IH].
    + intros H. apply IH. intros y Hy. apply H. now right.
Qed.

Lemma matches_spec (q : string) (h : hit) :
  matches lower q h = true <-> Matches lower q h.
Proof. apply contains_spec. Qed.

Lemma matches_empty (h : hit) :
  lower EmptyString = EmptyString -> matches lower EmptyString h = true.
Proof. intros E. unfold matches. rewrite E. apply contains_empty. Qed.

Lemma search_barangay_dataset (D : Dataset) (q : string) :
  search_barangay lower (py_of_dataset D) q
  = match filter (matches lower q) (occurrences D) with
    | [] => Raise (no_matches q)
    | h :: hs => Ok (mk_search_response q (h :: hs) (List.length (h :: hs)))
    end.
Proof.
  unfold search_barangay. rewrite collect_results_dataset. simpl.
  now destruct (filter (matches lower q) (occurrences D)).
Qed.

End Counting.

(** ** Enumerating a Dataset through the lookups *)

Section Enumeration.

Lemma for_each_keys_sum {V} (d : list (string * V))
    (body : string -> nat -> res nat) (f : V -> nat) :
  (forall k v t, In (k, v) d -> body k t = Ok (t + f v)) ->
  forall t,
    for_each (keys d) body t = Ok (t + sum_over (fun e => f (snd e)) d).
Proof.
  induction d as [|[k v] d IH]; simpl; intros H t.
  - f_equal. unfold sum_over; simpl. lia.
  - rewrite (H k v t) by now left. simpl.
    rewrite IH by (intros; apply H; now right).
    rewrite sum_over_cons. simpl. f_equal. lia.
Qed.

Variable D : Dataset.
Hypothesis Huniq : dataset_keys_unique D.

Lemma unique_in_region (r : string) (ps : Provinces) :
  In (r, ps) D ->
  assoc r D = Some ps
  /\ unique_keys ps
  /\ forall p ms, In (p, ms) ps -> assoc p ps = Some ms /\ unique_keys ms.
Proof.
  destruct Huniq as [HD Hall]. intros Hin.
  rewrite Forall_forall in Hall. destruct (Hall _ Hin) as [Hps Hms].
  simpl in *. split; [now apply assoc_unique|]. split; [exact Hps|].
  intros p ms Hp. split; [now apply assoc_unique|].
  rewrite Forall_forall in Hms. exact (Hms _ Hp).
Qed.

Lemma enumerated_municipalities (r p : string) (ps : Provinces)
    (ms : Municipalities) (t : nat) :
  In (r, ps) D -> In (p, ms) ps ->
  for_each (keys ms) (enumerated_municipality (py_of_dataset D) r p) t
  = Ok (t + sum_over (fun m => List.length (snd m)) ms).
Proof.
  intros Hr Hp.
  destruct (unique_in_region _ _ Hr) as (Er & _ & Hps).
  destruct (Hps _ _ Hp) as [Ep Hms].
  apply for_each_keys_sum. intros m bs t' Hm.
  unfold enumerated_municipality.
  rewrite get_barangays_dataset, Er, Ep, (assoc_unique _ _ _ Hms Hm).
  simpl. now rewrite length_map.
Qed.

Lemma enumerated_provinces (r : string) (ps : Provinces) (t : nat) :
  In (r, ps) D ->
  for_each (keys ps) (enumerated_province (py_of_dataset D) r) t
  = Ok (t + sum_over (fun p =>
                 sum_over (fun m => List.length (snd m)) (snd p)) ps).
Proof.
  intros Hr.
  destruct (unique_in_region _ _ Hr) as (Er & _ & Hps).
  apply for_each_keys_sum. intros p ms t' Hp.
  destruct (Hps _ _ Hp) as [Ep _].
  unfold enumerated_province.
  rewrite get_municipalities_dataset, Er, Ep. simpl.
  now apply enumerated_municipalities with (ps := ps).
Qed.

Lemma enumerated_regions (t : nat) :
  for_each (keys D) (enumerated_region (py_of_dataset D)) t
  = Ok (t + barangay_count D).
Proof.
  apply for_each_keys_sum. intros r ps t' Hr.
  destruct (unique_in_region _ _ Hr) as (Er & _ & _).
  unfold enumerated_region.
  rewrite get_provinces_dataset, Er. simpl.
  now apply enumerated_provinces.
Qed.

Lemma enumerated_barangay_total_dataset :
  enumerated_barangay_total (py_of_dataset D) = Ok (barangay_count D).
Proof.
  unfold enumerated_barangay_total.
  rewrite get_regions_dataset. simpl. apply enumerated_regions.
Qed.

End Enumeration.

(** ** What the guards leave of a malformed object *)

Section Guards.

Lemma guarded_regions_are_dicts (B : pyval) :
  guarded_shape B = true -> regions_are_dicts B = true.
Proof.
  destruct B; simpl; try discriminate.
  rewrite !forallb_forall. intros H v Hv.
  specialize (H v Hv). now destruct v.
Qed.

Lemma length_strings_of (bs : list pyval) :
  forallb is_str bs = true ->
  List.length (strings_of bs) = List.length bs.
Proof.
  induction bs as [|v bs IH]; simpl; [reflexivity|].
  destruct v; simpl; try discriminate. intros H. now rewrite IH.
Qed.

Lemma barangays_in_prune (ms : list (string * pyval)) :
  forallb barangays_guarded (values ms) = true ->
  sum_over len_if_list (values ms)
  = sum_over (fun m => List.length (snd m)) (prune_municipalities ms).
Proof.
  induction ms as [|[m v] ms IH]; simpl; [reflexivity|].
  intros H. apply andb_true_iff in H as [Hv Hms].
  rewrite sum_over_cons, (IH Hms).
  destruct v; simpl; try reflexivity.
  rewrite sum_over_cons. simpl. now rewrite length_strings_of.
Qed.

Lemma provinces_in_prune (ps : list (string * pyval)) :
  forallb municipalities_guarded (values ps) = true ->
  sum_over barangays_in (values ps)
  = sum_over (fun p => sum_over (fun m => List.length (snd m)) (snd p))
      (prune_provinces ps).
Proof.
  induction ps as [|[p v] ps IH]; simpl; [reflexivity|].
  intros H. apply andb_true_iff in H as [Hv Hps].
  rewrite sum_over_cons, (IH Hps).
  destruct v; simpl; try reflexivity.
  rewrite sum_over_cons. simpl.
  unfold barangays_in; simpl. now rewrite barangays_in_prune.
Qed.

Lemma guarded_barangay_count_prune (B : pyval) :
  guarded_shape B = true ->
  guarded_barangay_count B = barangay_count (prune B).
Proof.
  destruct B; simpl; try discriminate.
  unfold guarded_barangay_count, barangay_count; simpl.
  induction entries as [|[r v] rs IH]; simpl; [reflexivity|].
  intros H. apply andb_true_iff in H as [Hv Hrs].
  rewrite sum_over_cons, (IH Hrs).
  destruct v; simpl in Hv; try discriminate. simpl.
  rewrite sum_over_cons. simpl. now rewrite provinces_in_prune.
Qed.

End Guards.

(** ** Search *)

Section SearchClaims.

(** C1.  On every Dataset and for every query, [search_barangay] returns one
    record (barangay, municipality, province, region) per barangay
    occurrence whose lowercased name contains the lowercased query, a name
    listed twice giving two records, in traversal order: regions, then the
    provinces of the region, then the municipalities of the province, then
    the barangay list; [count] is their number.  Lowercasing is whatever
    [str.lower] computes.  The test the code runs decides substring
    containment of the lowercased strings, and the empty query, whose
    lowercased form is empty, matches every barangay.  When no occurrence
    matches there is nothing to return and the call raises the 404 of
    C4. *)
Theorem search_barangay_traversal_order (lower : string -> string)
    (D : Dataset) (q : string) :
  search_barangay lower (py_of_dataset D) q
  = match filter (matches lower q) (occurrences D) with
    | [] => Raise (no_matches q)
    | h :: hs => Ok (mk_search_response q (h :: hs) (List.length (h :: hs)))
    end
  /\ collect_results lower (py_of_dataset D) q
     = Ok (filter (matches lower q) (occurrences D))
  /\ (forall h, matches lower q h = true <-> Matches lower q h)
  /\ (lower EmptyString = EmptyString ->
      forall h, Matches lower EmptyString h).
Proof.
  split; [apply search_barangay_dataset|].
  split; [apply collect_results_dataset|].
  split; [intros h; apply matches_spec|].
  intros E h. now apply matches_spec, matches_empty.
Qed.

Lemma search_barangay_traversal_order_witness :
  search_barangay ascii_lower (py_of_dataset two_regions) "pOb"
  = Ok (mk_search_response "pOb"
          [mk_hit "Poblacion" "Makati" "Metro Manila" "NCR";
           mk_hit "Poblacion" "Makati" "Metro Manila" "NCR"] 2)
  /\ collect_results ascii_lower (py_of_dataset two_regions) "L"
     = Ok [mk_hit "Poblacion" "Makati" "Metro Manila" "NCR";
           mk_hit "Bel-Air" "Makati" "Metro Manila" "NCR";
           mk_hit "Poblacion" "Makati" "Metro Manila" "NCR";
           mk_hit "MAKILING" "Calamba" "Laguna" "Region IV-A";
           mk_hit "Real" "Calamba" "Laguna" "Region IV-A"]
  /\ Matches ascii_lower "" (mk_hit "Real" "Calamba" "Laguna" "Region IV-A").
Proof.
  split; [|split].
  - exact (proj1 (search_barangay_traversal_order
                    ascii_lower two_regions "pOb")).
  - exact (proj1 (proj2 (search_barangay_traversal_order
                           ascii_lower two_regions "L"))).
  - exact (proj2 (proj2 (proj2 (search_barangay_traversal_order
                                  ascii_lower two_regions "")))
             eq_refl _).
Defined.

(** C4.  On every Dataset and for every query, [search_barangay] raises the
    404 that quotes the query exactly when no barangay occurrence matches;
    it raises nothing else, and a response it returns never has an empty
    [results]. *)
Theorem search_barangay_fails_iff_no_match (lower : string -> string)
    (D : Dataset) (q : string) :
  (search_barangay lower (py_of_dataset D) q = Raise (no_matches q)
   <-> forall h, In h (occurrences D) -> ~ Matches lower q h)
  /\ (forall e, search_barangay lower (py_of_dataset D) q = Raise e ->
        e = no_matches q)
  /\ (forall resp, search_barangay lower (py_of_dataset D) q = Ok resp ->
        results resp <> []).
Proof.
  rewrite search_barangay_dataset.
  destruct (filter (matches lower q) (occurrences D)) as [|h hs] eqn:E.
  - split; [|split]; try discriminate.
    + split; [|reflexivity]. intros _ h Hin Hm.
      apply matches_spec in Hm.
      rewrite (proj1 (filter_nil_iff _ _) E h Hin) in Hm. discriminate.
    + now intros e [= <-].
  - split; [|split]; try discriminate.
    + split; [discriminate|]. intros H. exfalso.
      assert (Hin : In h (filter (matches lower q) (occurrences D)))
        by (rewrite E; now left).
      apply filter_In in Hin as [Hin Hm].
      apply (H h Hin). now apply matches_spec.
    + intros resp [= <-]. discriminate.
Qed.

Lemma search_barangay_fails_iff_no_match_witness :
  search_barangay ascii_lower (py_of_dataset scenario) "nonexistent"
  = Raise (no_matches "nonexistent").
Proof.
  apply (proj1 (search_barangay_fails_iff_no_match
                  ascii_lower scenario "nonexistent")).
  intros h Hin Hm. apply matches_spec in Hm.
  simpl in Hin. destruct Hin as [<- | [<- | []]]; discriminate Hm.
Defined.

(** C7, as stated, fails: two queries that differ only in letter case need
    not lowercase to the same string.  [str.lower] turns the capital sigma
    that ends ["ΑΣ"] into the final sigma, so a barangay named ["ασ"] is
    found by the query ["ασ"] and not by the query ["ΑΣ"]. *)
Lemma search_differs_on_final_sigma :
  sample_lower "ΑΣ" = "ας"
  /\ sample_lower "ασ" = "ασ"
  /\ search_barangay sample_lower (py_of_dataset final_sigma) "ασ"
     = Ok (mk_search_response "ασ" [mk_hit "ασ" "M" "P" "R"] 1)
  /\ search_barangay sample_lower (py_of_dataset final_sigma) "ΑΣ"
     = Raise (no_matches "ΑΣ").
Proof. repeat split. Qed.

(** C7, amended.  The search compares lowercased forms: on every Dataset,
    two queries with the same lowercased form (as ["MAKATI"] and
    ["makati"]) build the same result sequence, so one call returns a
    sequence exactly when the other returns that same sequence, and one
    call raises the no-match 404 exactly when the other does.  Each
    response and each 404 quotes the query of its own call as it was
    given. *)
Theorem search_barangay_same_lowercase (lower : string -> string)
    (D : Dataset) (q1 q2 : string) :
  lower q1 = lower q2 ->
  collect_results lower (py_of_dataset D) q1
  = collect_results lower (py_of_dataset D) q2
  /\ (forall hs n,
        search_barangay lower (py_of_dataset D) q1
        = Ok (mk_search_response q1 hs n)
        <-> search_barangay lower (py_of_dataset D) q2
            = Ok (mk_search_response q2 hs n))
  /\ (search_barangay lower (py_of_dataset D) q1 = Raise (no_matches q1)
      <-> search_barangay lower (py_of_dataset D) q2
          = Raise (no_matches q2)).
Proof.
  intros Hl.
  assert (Hf : filter (matches lower q1) (occurrences D)
               = filter (matches lower q2) (occurrences D)).
  { apply filter_ext. intros h. unfold matches. now rewrite Hl. }
  rewrite !collect_results_dataset, !search_barangay_dataset, Hf.
  split; [reflexivity|].
  destruct (filter (matches lower q2) (occurrences D)) as [|h hs].
  - split; [|tauto]. intros hs n. split; discriminate.
  - split; [|split; discriminate].
    intros hs' n. split; intros [= <- <-]; reflexivity.
Qed.

Lemma search_barangay_same_lowercase_witness :
  ascii_lower "POBLACION" = ascii_lower "poblacion"
  /\ collect_results ascii_lower (py_of_dataset two_regions) "POBLACION"
     = collect_results ascii_lower (py_of_dataset two_regions) "poblacion"
  /\ search_barangay ascii_lower (py_of_dataset two_regions) "poblacion"
     = Ok (mk_search_response "poblacion"
             [mk_hit "Poblacion" "Makati" "Metro Manila" "NCR";
              mk_hit "Poblacion" "Makati" "Metro Manila" "NCR"] 2).
Proof.
  assert (H : ascii_lower "POBLACION" = ascii_lower "poblacion")
    by reflexivity.
  destruct (search_barangay_same_lowercase ascii_lower two_regions _ _ H)
    as (Hc & Hs & _).
  split; [exact H|]. split; [exact Hc|].
  apply Hs. reflexivity.
Defined.

End SearchClaims.

(** ** Statistics *)

Section StatsClaims.

(** C2.  On every Dataset [get_stats] returns, and never raises:
    [total_regions] is the number of top-level keys, [total_provinces] the
    sum over the regions of their number of provinces,
    [total_municipalities] the sum over the (region, province) pairs of
    their number of municipalities, and [total_barangays] the sum over all
    municipalities of the length of their barangay list, a repeated name
    counted each time.  On the empty Dataset the four counts are zero. *)
Theorem get_stats_counts (D : Dataset) :
  get_stats (py_of_dataset D)
  = Ok (mk_stats (List.length (keys D)) (province_count D)
          (municipality_count D) (barangay_count D) psgc_source)
  /\ get_stats (py_of_dataset []) = Ok (mk_stats 0 0 0 0 psgc_source).
Proof.
  split; [|reflexivity].
  rewrite get_stats_dataset. unfold region_count, keys.
  now rewrite length_map.
Qed.

Lemma get_stats_counts_witness :
  get_stats (py_of_dataset two_regions)
  = Ok (mk_stats 2 3 3 6 psgc_source).
Proof. exact (proj1 (get_stats_counts two_regions)). Defined.

(** C6.  On every Dataset (the keys of every mapping pairwise distinct, as
    in any dict), [total_barangays] of [get_stats] equals the sum of the
    lengths of [get_barangays r p m] over every triple that [get_regions],
    [get_provinces] and [get_municipalities] enumerate; every lookup of the
    enumeration succeeds. *)
Theorem total_barangays_by_enumeration (D : Dataset) :
  dataset_keys_unique D ->
  exists st,
    get_stats (py_of_dataset D) = Ok st
    /\ enumerated_barangay_total (py_of_dataset D) = Ok (total_barangays st).
Proof.
  intros Huniq. eexists. split; [apply get_stats_dataset|].
  simpl. now apply enumerated_barangay_total_dataset.
Qed.

Lemma total_barangays_by_enumeration_witness :
  dataset_keys_unique two_regions
  /\ exists st,
       get_stats (py_of_dataset two_regions) = Ok st
       /\ enumerated_barangay_total (py_of_dataset two_regions)
          = Ok (total_barangays st).
Proof.
  assert (H : dataset_keys_unique two_regions).
  { unfold dataset_keys_unique, unique_keys. simpl.
    repeat first
      [ apply conj | apply Forall_cons | apply Forall_nil
      | apply NoDup_nil
      | apply NoDup_cons; [simpl; intros Hin; decompose [or] Hin;
                           try discriminate; assumption|] ]. }
  split; [exact H | exact (total_barangays_by_enumeration two_regions H)].
Defined.

End StatsClaims.

(** ** Exact-match lookups *)

Section LookupClaims.

Lemma differs_from_all_keys {V} (x : string) (d : list (string * V)) :
  (forall k, In k (keys d) -> k <> x) -> assoc x d = None.
Proof.
  intros H. apply assoc_None. intros Hin. now apply (H x Hin).
Qed.

Lemma get_barangays_region_missing (rs : list (string * pyval))
    (r p m : string) :
  ~ In r (keys rs) ->
  get_barangays (PyDict rs) r p m = Raise (region_not_found r).
Proof.
  intros H. apply has_key_false in H.
  unfold get_barangays; simpl. now rewrite H.
Qed.

Lemma get_barangays_province_missing (rs ps : list (string * pyval))
    (r p m : string) :
  assoc r rs = Some (PyDict ps) -> ~ In p (keys ps) ->
  get_barangays (PyDict rs) r p m = Raise (province_not_found p r).
Proof.
  intros Hr Hp. apply has_key_false in Hp.
  unfold get_barangays; simpl.
  rewrite assoc_has_key, Hr; simpl. now rewrite Hp.
Qed.

(** C3.  On every Dataset and for all strings, [get_barangays] raises the
    404 of the first missing level, region before province before
    municipality, and returns the stored barangay sequence when the three
    keys exist.  Once a level is missing nothing deeper is consulted: the
    404 of a missing region (of a missing province) is raised whatever the
    other arguments are and whatever the object holds below that level. *)
Theorem get_barangays_first_missing_level (D : Dataset) (r p m : string) :
  (~ In r (keys D) ->
   get_barangays (py_of_dataset D) r p m = Raise (region_not_found r))
  /\ (forall ps,
        assoc r D = Some ps -> ~ In p (keys ps) ->
        get_barangays (py_of_dataset D) r p m
        = Raise (province_not_found p r))
  /\ (forall ps ms,
        assoc r D = Some ps -> assoc p ps = Some ms -> ~ In m (keys ms) ->
        get_barangays (py_of_dataset D) r p m
        = Raise (municipality_not_found m p))
  /\ (forall ps ms bs,
        assoc r D = Some ps -> assoc p ps = Some ms -> assoc m ms = Some bs ->
        get_barangays (py_of_dataset D) r p m = Ok (py_of_barangays bs))
  /\ (forall rs,
        ~ In r (keys rs) ->
        get_barangays (PyDict rs) r p m = Raise (region_not_found r))
  /\ (forall rs ps,
        assoc r rs = Some (PyDict ps) -> ~ In p (keys ps) ->
        get_barangays (PyDict rs) r p m = Raise (province_not_found p r)).
Proof.
  rewrite get_barangays_dataset. repeat split.
  - intros H. apply assoc_None in H. now rewrite H.
  - intros ps Hr Hp. apply assoc_None in Hp. now rewrite Hr, Hp.
  - intros ps ms Hr Hp Hm. apply assoc_None in Hm. now rewrite Hr, Hp, Hm.
  - intros ps ms bs Hr Hp Hm. now rewrite Hr, Hp, Hm.
  - intros rs. apply get_barangays_region_missing.
  - intros rs ps. apply get_barangays_province_missing.
Qed.

Lemma get_barangays_first_missing_level_witness :
  get_barangays (py_of_dataset scenario) "RegionZ" "ProvinceX" "MunicipalityY"
  = Raise (HTTPException 404 "Region 'RegionZ' not found")
  /\ get_barangays (py_of_dataset scenario) "RegionA" "ProvinceZ" "Nowhere"
     = Raise (HTTPException 404
                "Province 'ProvinceZ' not found in region 'RegionA'")
  /\ get_barangays (py_of_dataset scenario) "RegionA" "ProvinceX" "Nowhere"
     = Raise (HTTPException 404
                "Municipality 'Nowhere' not found in province 'ProvinceX'")
  /\ get_barangays (py_of_dataset scenario)
       "RegionA" "ProvinceX" "MunicipalityY"
     = Ok (PyList [PyStr "North Poblacion"; PyStr "South Poblacion"])
  /\ get_barangays skipped_province "S" "P" "M"
     = Raise (HTTPException 404 "Region 'S' not found")
  /\ get_barangays partly_malformed "R" "Z" "M"
     = Raise (HTTPException 404 "Province 'Z' not found in region 'R'").
Proof.
  assert (Hno : forall (x : string) (l : list string),
             forallb (fun k => negb (String.eqb x k)) l = true -> ~ In x l).
  { intros x l H Hin. rewrite forallb_forall in H.
    specialize (H x Hin). now rewrite String.eqb_refl in H. }
  split; [|split; [|split; [|split; [|split]]]].
  - apply (proj1 (get_barangays_first_missing_level
                    scenario "RegionZ" "ProvinceX" "MunicipalityY")).
    now apply Hno.
  - apply (proj1 (proj2 (get_barangays_first_missing_level
                           scenario "RegionA" "ProvinceZ" "Nowhere"))
             _ eq_refl).
    now apply Hno.
  - apply (proj1 (proj2 (proj2 (get_barangays_first_missing_level
                                  scenario "RegionA" "ProvinceX" "Nowhere")))
             _ _ eq_refl eq_refl).
    now apply Hno.
  - exact (proj1 (proj2 (proj2 (proj2 (get_barangays_first_missing_level
             scenario "RegionA" "ProvinceX" "MunicipalityY"))))
             _ _ _ eq_refl eq_refl eq_refl).
  - apply (proj1 (proj2 (proj2 (proj2 (proj2
             (get_barangays_first_missing_level [] "S" "P" "M")))))).
    now apply Hno.
  - unfold partly_malformed.
    eapply (proj2 (proj2 (proj2 (proj2 (proj2
              (get_barangays_first_missing_level [] "R" "Z" "M")))))).
    + reflexivity.
    + now apply Hno.
Defined.

(** C8.  On every Dataset and for every string, [get_provinces] raises the
    404 that names the region when the region is not a key of the Dataset,
    and otherwise returns exactly the province keys stored under that
    region, in stored order. *)
Theorem get_provinces_stored_keys (D : Dataset) (r : string) :
  (~ In r (keys D) ->
   get_provinces (py_of_dataset D) r = Raise (region_not_found r))
  /\ (In r (keys D) ->
      exists ps,
        assoc r D = Some ps
        /\ get_provinces (py_of_dataset D) r = Ok (keys ps)).
Proof.
  rewrite get_provinces_dataset. split.
  - intros H. apply assoc_None in H. now rewrite H.
  - intros H. destruct (assoc r D) as [ps|] eqn:E.
    + now exists ps.
    + apply assoc_None in E. contradiction.
Qed.

Lemma get_provinces_stored_keys_witness :
  get_provinces (py_of_dataset scenario) "RegionZ"
  = Raise (HTTPException 404 "Region 'RegionZ' not found")
  /\ exists ps,
       assoc "Region IV-A" two_regions = Some ps
       /\ get_provinces (py_of_dataset two_regions) "Region IV-A"
          = Ok (keys ps).
Proof.
  split.
  - apply (proj1 (get_provinces_stored_keys scenario "RegionZ")).
    simpl. intros [H | []]. discriminate H.
  - apply (proj2 (get_provinces_stored_keys two_regions "Region IV-A")).
    simpl. right. left. reflexivity.
Defined.

(** C9.  The three lookups compare their arguments with the stored keys
    character for character, with no case folding and no trimming: on
    every Dataset, an argument that differs from every stored key of its
    level makes the lookup raise the 404 of that level, also when it
    differs from a stored key only in letter case or in surrounding
    blanks. *)
Theorem lookups_need_exact_key (D : Dataset) (r p m : string) :
  ((forall k, In k (keys D) -> k <> r) ->
   get_provinces (py_of_dataset D) r = Raise (region_not_found r)
   /\ get_municipalities (py_of_dataset D) r p = Raise (region_not_found r)
   /\ get_barangays (py_of_dataset D) r p m = Raise (region_not_found r))
  /\ (forall ps,
        assoc r D = Some ps -> (forall k, In k (keys ps) -> k <> p) ->
        get_municipalities (py_of_dataset D) r p
        = Raise (province_not_found p r)
        /\ get_barangays (py_of_dataset D) r p m
           = Raise (province_not_found p r))
  /\ (forall ps ms,
        assoc r D = Some ps -> assoc p ps = Some ms ->
        (forall k, In k (keys ms) -> k <> m) ->
        get_barangays (py_of_dataset D) r p m
        = Raise (municipality_not_found m p)).
Proof.
  rewrite get_provinces_dataset, get_municipalities_dataset,
    get_barangays_dataset.
  split; [|split].
  - intros H. apply differs_from_all_keys in H. now rewrite H.
  - intros ps Hr H. apply differs_from_all_keys in H. now rewrite Hr, H.
  - intros ps ms Hr Hp H. apply differs_from_all_keys in H.
    now rewrite Hr, Hp, H.
Qed.

Lemma lookups_need_exact_key_witness :
  get_provinces (py_of_dataset scenario) "regiona"
  = Raise (HTTPException 404 "Region 'regiona' not found")
  /\ get_municipalities (py_of_dataset scenario) "RegionA" " ProvinceX"
     = Raise (HTTPException 404
                "Province ' ProvinceX' not found in region 'RegionA'")
  /\ get_barangays (py_of_dataset scenario)
       "RegionA" "ProvinceX" "MUNICIPALITYY"
     = Raise (HTTPException 404
          "Municipality 'MUNICIPALITYY' not found in province 'ProvinceX'").
Proof.
  split; [|split].
  - apply (proj1 (lookups_need_exact_key scenario "regiona" "" "")).
    simpl. intros k [<- | []]. discriminate.
  - apply (proj1 (proj2 (lookups_need_exact_key
                           scenario "RegionA" " ProvinceX" ""))
             _ eq_refl).
    simpl. intros k [<- | []]. discriminate.
  - apply (proj2 (proj2 (lookups_need_exact_key
                           scenario "RegionA" "ProvinceX" "MUNICIPALITYY"))
             _ _ eq_refl eq_refl).
    simpl. intros k [<- | []]. discriminate.
Defined.

End LookupClaims.

(** ** The empty query, and objects that are not Datasets *)

Section EdgeClaims.

(** C5, as stated, fails on a Dataset without barangays: the empty query
    matches nothing there, and the call raises the no-match 404 instead of
    returning the empty sequence. *)
Lemma search_empty_query_on_empty_dataset :
  search_barangay ascii_lower (py_of_dataset []) ""
  = Raise (HTTPException 404 "No barangays found containing ''")
  /\ get_stats (py_of_dataset []) = Ok (mk_stats 0 0 0 0 psgc_source)
  /\ ~ (exists resp,
          search_barangay ascii_lower (py_of_dataset []) "" = Ok resp).
Proof.
  split; [reflexivity|]. split; [reflexivity|].
  intros [resp H]. discriminate H.
Qed.

(** C5, amended.  On every Dataset that holds at least one barangay,
    [search_barangay] with the empty query returns every barangay
    occurrence of the Dataset, in traversal order, and [count] equals
    [total_barangays] of [get_stats].  On a Dataset that holds no barangay
    the same call raises the no-match 404.  The lowercased form of the
    empty str is the empty str. *)
Theorem search_empty_query_returns_all (lower : string -> string)
    (D : Dataset) :
  lower EmptyString = EmptyString ->
  (0 < barangay_count D ->
   exists st,
     get_stats (py_of_dataset D) = Ok st
     /\ search_barangay lower (py_of_dataset D) ""
        = Ok (mk_search_response "" (occurrences D) (total_barangays st)))
  /\ (barangay_count D = 0 ->
      search_barangay lower (py_of_dataset D) "" = Raise (no_matches "")).
Proof.
  intros E. rewrite search_barangay_dataset, get_stats_dataset.
  rewrite (filter_all (matches lower "") (occurrences D))
    by (intros; now apply matches_empty).
  rewrite <- length_occurrences.
  destruct (occurrences D) as [|h hs]; simpl; split.
  - intros H. inversion H.
  - reflexivity.
  - intros _. eexists. split; reflexivity.
  - discriminate.
Qed.

Lemma search_empty_query_returns_all_witness :
  0 < barangay_count two_regions
  /\ exists st,
       get_stats (py_of_dataset two_regions) = Ok st
       /\ search_barangay ascii_lower (py_of_dataset two_regions) ""
          = Ok (mk_search_response "" (occurrences two_regions)
                  (total_barangays st)).
Proof.
  assert (H : 0 < barangay_count two_regions) by (vm_compute; lia).
  split; [exact H|].
  exact (proj1 (search_empty_query_returns_all ascii_lower two_regions
                  eq_refl) H).
Defined.

(** C10, as stated, fails: on an object whose only province is not a dict
    nothing can match, and the search raises the no-match 404, for the
    empty query too; on an object with a skipped province and matching
    barangays elsewhere, a query that matches none of them raises it as
    well. *)
Lemma search_fails_on_skipped_province :
  search_barangay ascii_lower skipped_province ""
  = Raise (HTTPException 404 "No barangays found containing ''")
  /\ search_barangay ascii_lower partly_malformed "makati"
     = Raise (HTTPException 404 "No barangays found containing 'makati'").
Proof. split; reflexivity. Qed.

(** C10, amended.  On every object of guarded shape (a dict of dicts in
    which a province's value need not be a dict and a municipality's value
    need not be a list, the lists that are there holding strings) neither
    [search_barangay] nor [get_stats] raises a type error.
    [search_barangay] behaves as on the Dataset left when the
    subtrees under those values are removed: it returns the matching
    occurrences of that Dataset, or raises the no-match 404 when there are
    none.  [get_stats] returns: [total_provinces] counts every entry under
    every region; a province whose value is not a dict adds nothing to
    [total_municipalities] and [total_barangays]; a municipality whose
    value is not a list is counted in [total_municipalities] and adds
    nothing to [total_barangays], which is the barangay count of the pruned
    Dataset. *)
Theorem guards_skip_malformed_subtrees (lower : string -> string)
    (B : pyval) (q : string) :
  guarded_shape B = true ->
  search_barangay lower B q
  = search_barangay lower (py_of_dataset (prune B)) q
  /\ search_barangay lower B q
     = match filter (matches lower q) (occurrences (prune B)) with
       | [] => Raise (no_matches q)
       | h :: hs =>
           Ok (mk_search_response q (h :: hs) (List.length (h :: hs)))
       end
  /\ get_stats B
     = Ok (mk_stats (List.length (entries_of B))
             (guarded_province_count B)
             (guarded_municipality_count B)
             (guarded_barangay_count B)
             psgc_source)
  /\ guarded_barangay_count B = barangay_count (prune B).
Proof.
  intros H.
  assert (Hs : search_barangay lower B q
               = match filter (matches lower q) (occurrences (prune B)) with
                 | [] => Raise (no_matches q)
                 | h :: hs =>
                     Ok (mk_search_response q (h :: hs)
                           (List.length (h :: hs)))
                 end).
  { unfold search_barangay.
    rewrite (collect_results_guarded lower q B H). simpl.
    now destruct (filter (matches lower q) (occurrences (prune B))). }
  split; [now rewrite search_barangay_dataset|].
  split; [exact Hs|].
  split; [apply get_stats_guarded; now apply guarded_regions_are_dicts|].
  now apply guarded_barangay_count_prune.
Qed.

Lemma guards_skip_malformed_subtrees_witness :
  guarded_shape partly_malformed = true
  /\ search_barangay ascii_lower partly_malformed "SILANG"
     = Ok (mk_search_response "SILANG" [mk_hit "Bagong Silang" "N" "Q" "R"] 1)
  /\ get_stats partly_malformed = Ok (mk_stats 1 2 2 2 psgc_source).
Proof.
  assert (H : guarded_shape partly_malformed = true) by reflexivity.
  destruct (guards_skip_malformed_subtrees ascii_lower
              partly_malformed "SILANG" H)
    as (_ & Hs & Hg & _).
  split; [exact H|]. split; [exact Hs | exact Hg].
Defined.

(** What the guards do not cover: a region that is not a dict, and a
    barangay that is not a string, still raise. *)
Example region_not_a_dict_raises :
  search_barangay ascii_lower (PyDict [("R", PyNone)]) ""
  = Raise AttributeError
  /\ get_stats (PyDict [("R", PyNone)]) = Raise TypeError
  /\ get_stats (PyDict [("R", PyList [])]) = Raise AttributeError.
Proof. repeat split. Qed.

Example barangay_not_a_string_raises :
  search_barangay ascii_lower
    (PyDict [("R", PyDict [("P", PyDict [("M", PyList [PyInt 1])])])]) ""
  = Raise AttributeError
  /\ get_stats
       (PyDict [("R", PyDict [("P", PyDict [("M", PyList [PyInt 1])])])])
     = Ok (mk_stats 1 1 1 1 psgc_source).
Proof. split; reflexivity. Qed.

End EdgeClaims.

(** ** Objects outside the guarded shape *)

Section TypeErrors.

Lemma for_each_raises {A S} (ok : A -> bool) (body : A -> S -> res S)
    (e : pyexc) (xs : list A) :
  (forall x s, ok x = true -> exists s', body x s = Ok s') ->
  (forall x s, ok x = false -> body x s = Raise e) ->
  forallb ok xs = false ->
  forall s, for_each xs body s = Raise e.
Proof.
  intros Hok Hbad. induction xs as [|x xs IH]; simpl; [discriminate|].
  intros H s. destruct (ok x) eqn:E; simpl in H.
  - destruct (Hok x s E) as [s' ->]. simpl. now apply IH.
  - now rewrite (Hbad x s E).
Qed.

Lemma forallb_values {V} (f : V -> bool) (d : list (string * V)) :
  forallb f (values d) = forallb (fun e => f (snd e)) d.
Proof.
  induction d as [|e d IH]; simpl; [reflexivity|]. now rewrite IH.
Qed.

Lemma matching_barangays_raises (lower : string -> string)
    (q : string) (bs : list pyval) :
  forallb is_str bs = false ->
  matching_barangays lower q bs = Raise AttributeError.
Proof.
  induction bs as [|v bs IH]; simpl; [discriminate|].
  destruct v; simpl; try reflexivity.
  intros H. now rewrite (IH H).
Qed.

Lemma search_municipalities_raise (lower : string -> string) (q r p : string)
    (ms : list (string * pyval)) :
  forallb barangays_guarded (values ms) = false ->
  forall acc,
    for_each ms (search_municipality lower q r p) acc = Raise AttributeError.
Proof.
  rewrite forallb_values.
  apply for_each_raises; intros [m v] acc; simpl.
  - destruct v; simpl; intros H; eauto.
    rewrite (matching_barangays_guarded lower q _ H). simpl. eauto.
  - destruct v; simpl; try discriminate.
    intros H. now rewrite (matching_barangays_raises lower q _ H).
Qed.

Lemma search_provinces_raise (lower : string -> string)
    (q r : string) (ps : list (string * pyval)) :
  forallb municipalities_guarded (values ps) = false ->
  forall acc, for_each ps (search_province lower q r) acc = Raise AttributeError.
Proof.
  rewrite forallb_values.
  apply for_each_raises; intros [p v] acc; simpl.
  - destruct v; simpl; intros H; eauto.
    rewrite (search_municipalities_guarded lower q r p _ H). eauto.
  - destruct v; simpl; try discriminate.
    intros H. now apply search_municipalities_raise.
Qed.

Lemma search_regions_raise (lower : string -> string)
    (q : string) (rs : list (string * pyval)) :
  forallb provinces_guarded (values rs) = false ->
  forall acc, for_each rs (search_region lower q) acc = Raise AttributeError.
Proof.
  rewrite forallb_values.
  apply for_each_raises; intros [r v] acc; simpl.
  - destruct v; simpl; try discriminate. intros H.
    rewrite (search_provinces_guarded lower q r _ H). eauto.
  - destruct v; simpl; try reflexivity.
    intros H. now apply search_provinces_raise.
Qed.

Lemma collect_results_raises (lower : string -> string)
    (B : pyval) (q : string) :
  guarded_shape B = false -> collect_results lower B q = Raise AttributeError.
Proof.
  destruct B; simpl; try reflexivity.
  intros H. unfold collect_results; simpl. now apply search_regions_raise.
Qed.

(** X1.  [search_barangay] on any object whatever: when some region is not
    a dict, or some list in the place of a barangay list holds a value that
    is not a string (or the object is no dict at all), the call raises
    [AttributeError] for every query, also for queries that matched in the
    regions visited before; on every other object it returns the matches
    of the pruned Dataset or raises the no-match 404.  Nothing else is ever
    raised. *)
Theorem search_barangay_on_any_object (lower : string -> string)
    (B : pyval) (q : string) :
  search_barangay lower B q
  = if guarded_shape B then
      match filter (matches lower q) (occurrences (prune B)) with
      | [] => Raise (no_matches q)
      | h :: hs => Ok (mk_search_response q (h :: hs) (List.length (h :: hs)))
      end
    else Raise AttributeError.
Proof.
  unfold search_barangay. destruct (guarded_shape B) eqn:E.
  - rewrite (collect_results_guarded lower q B E). simpl.
    now destruct (filter (matches lower q) (occurrences (prune B))).
  - now rewrite (collect_results_raises lower B q E).
Qed.

Lemma sum_len_raises (vs : list pyval) :
  forallb has_len vs = false ->
  forall total,
    for_each vs (fun v total => n <- py_len v ;; Ok (total + n)) total
    = Raise TypeError.
Proof.
  apply for_each_raises; intros v t; destruct v; simpl;
    try discriminate; eauto.
Qed.

Lemma sum_len_returns (vs : list pyval) :
  forallb has_len vs = true ->
  forall total, exists n,
    for_each vs (fun v total => n <- py_len v ;; Ok (total + n)) total
    = Ok n.
Proof.
  induction vs as [|v vs IH]; simpl; intros H total; [eauto|].
  apply andb_true_iff in H as [Hv Hvs].
  destruct v; simpl in *; try discriminate; now apply IH.
Qed.

Lemma count_regions_raise (vs : list pyval) :
  forallb is_dict vs = false ->
  forall totals, for_each vs count_region totals = Raise AttributeError.
Proof.
  apply for_each_raises; intros v [tm tb]; destruct v; simpl;
    try discriminate; try reflexivity.
  intros _. unfold count_region; simpl.
  rewrite count_provinces_loop. eauto.
Qed.

(** X2.  [get_stats] on any object whatever: it returns exactly when the
    object is a dict whose regions are all dicts, whatever lies below the
    regions; otherwise it raises [TypeError] when the object or one of its
    regions has no [len], and [AttributeError] when they all have one but
    are not all dicts. *)
Theorem get_stats_on_any_object (B : pyval) :
  get_stats B
  = if regions_are_dicts B then
      Ok (mk_stats (List.length (entries_of B))
            (guarded_province_count B)
            (guarded_municipality_count B)
            (guarded_barangay_count B)
            psgc_source)
    else Raise (stats_fault B).
Proof.
  destruct (regions_are_dicts B) eqn:E; [now apply get_stats_guarded|].
  destruct B; try reflexivity.
  simpl in E. unfold get_stats, sum_len, stats_fault; simpl.
  destruct (forallb has_len (values entries)) eqn:L.
  - destruct (sum_len_returns _ L 0) as [n ->]. simpl.
    now rewrite (count_regions_raise _ E).
  - now rewrite (sum_len_raises _ L).
Qed.

End TypeErrors.

(** ** More on the lookups *)

Section LookupExtras.

(** X3.  On every Dataset [get_municipalities] raises the region 404 when
    the region is missing, whatever the province argument, the province 404
    when the region exists and the province is missing under it, and
    otherwise returns the municipality keys stored under that province, in
    stored order.  On any dict at all, a missing region gives the region
    404 whatever the dict holds. *)
Theorem get_municipalities_first_missing_level (D : Dataset) (r p : string) :
  (~ In r (keys D) ->
   get_municipalities (py_of_dataset D) r p = Raise (region_not_found r))
  /\ (forall ps,
        assoc r D = Some ps -> ~ In p (keys ps) ->
        get_municipalities (py_of_dataset D) r p
        = Raise (province_not_found p r))
  /\ (forall ps ms,
        assoc r D = Some ps -> assoc p ps = Some ms ->
        get_municipalities (py_of_dataset D) r p = Ok (keys ms))
  /\ (forall rs,
        ~ In r (keys rs) ->
        get_municipalities (PyDict rs) r p = Raise (region_not_found r)).
Proof.
  rewrite get_municipalities_dataset. repeat split.
  - intros H. apply assoc_None in H. now rewrite H.
  - intros ps Hr Hp. apply assoc_None in Hp. now rewrite Hr, Hp.
  - intros ps ms Hr Hp. now rewrite Hr, Hp.
  - intros rs H. apply has_key_false in H.
    unfold get_municipalities; simpl. now rewrite H.
Qed.

Lemma get_municipalities_first_missing_level_witness :
  get_municipalities (py_of_dataset two_regions) "NCR" "Metro Manila"
  = Ok ["Makati"; "Taguig"]
  /\ get_municipalities (py_of_dataset two_regions) "NCR" "Laguna"
     = Raise (HTTPException 404
                "Province 'Laguna' not found in region 'NCR'").
Proof.
  split.
  - exact (proj1 (proj2 (proj2 (get_municipalities_first_missing_level
             two_regions "NCR" "Metro Manila"))) _ _ eq_refl eq_refl).
  - apply (proj1 (proj2 (get_municipalities_first_missing_level
             two_regions "NCR" "Laguna")) _ eq_refl).
    simpl. intros [H | []]. discriminate H.
Defined.

(** X4.  On a Dataset the lookups raise nothing but their own 404s (no
    [KeyError], [TypeError] or [AttributeError] reaches the caller), and
    what [get_barangays] returns is always the list stored under the three
    keys. *)
Theorem lookups_raise_only_404 (D : Dataset) (r p m : string) :
  (forall e, get_provinces (py_of_dataset D) r = Raise e ->
     e = region_not_found r)
  /\ (forall e, get_municipalities (py_of_dataset D) r p = Raise e ->
        e = region_not_found r \/ e = province_not_found p r)
  /\ (forall e, get_barangays (py_of_dataset D) r p m = Raise e ->
        e = region_not_found r \/ e = province_not_found p r
        \/ e = municipality_not_found m p)
  /\ (forall v, get_barangays (py_of_dataset D) r p m = Ok v ->
        exists ps ms bs,
          assoc r D = Some ps /\ assoc p ps = Some ms
          /\ assoc m ms = Some bs /\ v = py_of_barangays bs).
Proof.
  rewrite get_provinces_dataset, get_municipalities_dataset,
    get_barangays_dataset.
  destruct (assoc r D) as [ps|].
  - destruct (assoc p ps) as [ms|] eqn:Ep.
    + destruct (assoc m ms) as [bs|] eqn:Em;
        (split; [|split; [|split]]); try discriminate.
      * intros v [= <-]. now exists ps, ms, bs.
      * intros e [= <-]. auto.
    + (split; [|split; [|split]]); try discriminate; intros e [= <-]; auto.
  - (split; [|split; [|split]]); try discriminate; intros e [= <-]; auto.
Qed.

(** X5.  Drilling down never fails: on every Dataset [get_regions]
    returns, every region it lists is accepted by [get_provinces], every
    province listed there by [get_municipalities], and every municipality
    listed there by [get_barangays], which returns a list of strings. *)
Theorem drill_down_never_fails (D : Dataset) :
  exists rs,
    get_regions (py_of_dataset D) = Ok rs
    /\ forall r, In r rs ->
       exists ps,
         get_provinces (py_of_dataset D) r = Ok ps
         /\ forall p, In p ps ->
            exists ms,
              get_municipalities (py_of_dataset D) r p = Ok ms
              /\ forall m, In m ms ->
                 exists bs,
                   get_barangays (py_of_dataset D) r p m
                   = Ok (py_of_barangays bs).
Proof.
  assert (Hin : forall V (k : string) (d : list (string * V)),
             In k (keys d) -> exists v, assoc k d = Some v).
  { intros V k d H. destruct (assoc k d) eqn:E; [eauto|].
    apply assoc_None in E. contradiction. }
  exists (keys D). split; [apply get_regions_dataset|].
  intros r Hr. destruct (Hin _ _ _ Hr) as [ps Er].
  exists (keys ps). split; [now rewrite get_provinces_dataset, Er|].
  intros p Hp. destruct (Hin _ _ _ Hp) as [ms Ep].
  exists (keys ms). split; [now rewrite get_municipalities_dataset, Er, Ep|].
  intros m Hm. destruct (Hin _ _ _ Hm) as [bs Em].
  exists bs. now rewrite get_barangays_dataset, Er, Ep, Em.
Qed.

(** X6.  The lookups carry no [isinstance] guard.  On any dict,
    [get_provinces] raises [AttributeError] for a region whose value is not
    a dict; [get_barangays] returns whatever value is stored under the
    three keys, list or not; and when a region's value is a string,
    [get_municipalities] treats the province name as a substring query:
    [TypeError] when it occurs in that string, the province 404 when it
    does not. *)
Theorem lookups_are_not_guarded (rs : list (string * pyval)) (r p m : string) :
  get_provinces (PyDict rs) r
  = match assoc r rs with
    | None => Raise (region_not_found r)
    | Some (PyDict ps) => Ok (keys ps)
    | Some _ => Raise AttributeError
    end
  /\ (forall ps ms v,
        assoc r rs = Some (PyDict ps) -> assoc p ps = Some (PyDict ms) ->
        assoc m ms = Some v ->
        get_barangays (PyDict rs) r p m = Ok v)
  /\ (forall s,
        assoc r rs = Some (PyStr s) ->
        get_municipalities (PyDict rs) r p
        = if contains p s then Raise TypeError
          else Raise (province_not_found p r)).
Proof.
  split; [|split].
  - unfold get_provinces; simpl. rewrite assoc_has_key.
    destruct (assoc r rs) as [v|]; simpl; [|reflexivity].
    now destruct v.
  - intros ps ms v Hr Hp Hm. unfold get_barangays; simpl.
    rewrite assoc_has_key, Hr; simpl.
    rewrite assoc_has_key, Hp; simpl.
    now rewrite assoc_has_key, Hm.
  - intros s Hr. unfold get_municipalities; simpl.
    rewrite assoc_has_key, Hr; simpl.
    now destruct (contains p s).
Qed.

Lemma lookups_are_not_guarded_witness :
  get_barangays partly_malformed "R" "Q" "M" = Ok (PyInt 3)
  /\ get_municipalities (PyDict [("R", PyStr "Laguna")]) "R" "gun"
     = Raise TypeError
  /\ get_municipalities (PyDict [("R", PyStr "Laguna")]) "R" "Cavite"
     = Raise (HTTPException 404
                "Province 'Cavite' not found in region 'R'").
Proof.
  split; [|split].
  - unfold partly_malformed.
    eapply (proj1 (proj2 (lookups_are_not_guarded _ "R" "Q" "M")));
      reflexivity.
  - exact (proj2 (proj2 (lookups_are_not_guarded
                           [("R", PyStr "Laguna")] "R" "gun" ""))
             "Laguna" eq_refl).
  - exact (proj2 (proj2 (lookups_are_not_guarded
                           [("R", PyStr "Laguna")] "R" "Cavite" ""))
             "Laguna" eq_refl).
Defined.

End LookupExtras.

(** ** More on the search *)

Section SearchExtras.

Lemma in_occurrences (D : Dataset) (h : hit) :
  In h (occurrences D)
  <-> exists ps ms bs,
        In (region h, ps) D /\ In (province h, ms) ps
        /\ In (municipality h, bs) ms /\ In (barangay h) bs.
Proof.
  unfold occurrences, hits_of_region, hits_of_province, hits_of_municipality.
  split.
  - intros H.
    apply in_flat_map in H as ([r ps] & Hr & H).
    apply in_flat_map in H as ([p ms] & Hp & H).
    apply in_flat_map in H as ([m bs] & Hm & H).
    apply in_map_iff in H as (b & <- & Hb). simpl in *.
    now exists ps, ms, bs.
  - intros (ps & ms & bs & Hr & Hp & Hm & Hb).
    apply in_flat_map. exists (region h, ps). split; [exact Hr|].
    apply in_flat_map. exists (province h, ms). split; [exact Hp|].
    apply in_flat_map. exists (municipality h, bs). split; [exact Hm|].
    apply in_map_iff. exists (barangay h). split; [now destruct h | exact Hb].
Qed.

Lemma append_assoc (a b c : string) :
  ((a ++ b) ++ c)%string = (a ++ b ++ c)%string.
Proof. induction a as [|x a IH]; simpl; [reflexivity | now rewrite IH]. Qed.

Lemma append_empty_r (a : string) : (a ++ "")%string = a.
Proof. induction a as [|x a IH]; simpl; [reflexivity | now rewrite IH]. Qed.

Lemma Substring_refl (s : string) : Substring s s.
Proof. exists EmptyString, EmptyString. simpl. now rewrite append_empty_r. Qed.

Lemma Substring_trans (a b c : string) :
  Substring a b -> Substring b c -> Substring a c.
Proof.
  intros (p1 & s1 & ->) (p2 & s2 & ->).
  exists (p2 ++ p1)%string, (s1 ++ s2)%string.
  now rewrite !append_assoc.
Qed.

Lemma matches_narrow (lower : string -> string) (q1 q2 : string) (h : hit) :
  Substring (lower q1) (lower q2) ->
  matches lower q2 h = true -> matches lower q1 h = true.
Proof.
  intros Hq H. apply matches_spec. apply matches_spec in H.
  exact (Substring_trans _ _ _ Hq H).
Qed.

Lemma filter_filter_implied {A} (f g : A -> bool) (l : list A) :
  (forall x, g x = true -> f x = true) ->
  filter g (filter f l) = filter g l.
Proof.
  intros H. induction l as [|x l IH]; simpl; [reflexivity|].
  destruct (f x) eqn:F; simpl.
  - now rewrite IH.
  - destruct (g x) eqn:G; [|exact IH].
    apply H in G. congruence.
Qed.

Lemma collect_results_ok_guarded (lower : string -> string) (B : pyval)
    (q : string) (rs : list hit) :
  collect_results lower B q = Ok rs -> guarded_shape B = true.
Proof.
  intros H. destruct (guarded_shape B) eqn:E; [reflexivity|].
  rewrite (collect_results_raises lower B q E) in H. discriminate.
Qed.

(** X7.  Every hit of a search can be looked up: on a Dataset (keys
    pairwise distinct at every level), for each record of a returned
    [results], [get_barangays] on the record's region, province and
    municipality returns a list that holds the record's barangay, and the
    lowercased barangay does contain the lowercased query. *)
Theorem search_hits_are_addressable (lower : string -> string)
    (D : Dataset) (q : string) (resp : search_response) (h : hit) :
  dataset_keys_unique D ->
  search_barangay lower (py_of_dataset D) q = Ok resp ->
  In h (results resp) ->
  exists bs,
    get_barangays (py_of_dataset D) (region h) (province h) (municipality h)
    = Ok (py_of_barangays bs)
    /\ In (barangay h) bs
    /\ Matches lower q h.
Proof.
  intros Huniq Hs Hin. rewrite search_barangay_dataset in Hs.
  assert (Hf : In h (filter (matches lower q) (occurrences D))).
  { destruct (filter (matches lower q) (occurrences D)); [discriminate|].
    injection Hs as <-. exact Hin. }
  apply filter_In in Hf as [Hocc Hm].
  apply in_occurrences in Hocc as (ps & ms & bs & Hr & Hp & Hmu & Hb).
  destruct (unique_in_region D Huniq _ _ Hr) as (Er & _ & Hps).
  destruct (Hps _ _ Hp) as [Ep Hums].
  exists bs. rewrite get_barangays_dataset, Er, Ep.
  rewrite (assoc_unique _ _ _ Hums Hmu).
  repeat split; [exact Hb | now apply matches_spec].
Qed.

Lemma search_hits_are_addressable_witness :
  exists bs,
    get_barangays (py_of_dataset two_regions) "Region IV-A" "Laguna" "Calamba"
    = Ok (py_of_barangays bs)
    /\ In "MAKILING" bs
    /\ Matches ascii_lower "kil"
         (mk_hit "MAKILING" "Calamba" "Laguna" "Region IV-A").
Proof.
  assert (H : dataset_keys_unique two_regions).
  { unfold dataset_keys_unique, unique_keys. simpl.
    repeat first
      [ apply conj | apply Forall_cons | apply Forall_nil
      | apply NoDup_nil
      | apply NoDup_cons; [simpl; intros Hin; decompose [or] Hin;
                           try discriminate; assumption|] ]. }
  apply (search_hits_are_addressable ascii_lower two_regions "kil"
           (mk_search_response "kil"
              [mk_hit "MAKILING" "Calamba" "Laguna" "Region IV-A"] 1)
           (mk_hit "MAKILING" "Calamba" "Laguna" "Region IV-A") H).
  - reflexivity.
  - simpl. left. reflexivity.
Defined.

(** X8.  Every listed barangay can be found: on a Dataset, when
    [get_barangays r p m] returns a list, each name [b] in it is found by
    searching for [b], or for any query with the same lowercased form as
    [b], and the response holds the record of [b] under [m], [p] and
    [r]. *)
Theorem listed_barangays_are_findable (lower : string -> string)
    (D : Dataset) (r p m b q : string) (bs : Barangays) :
  get_barangays (py_of_dataset D) r p m = Ok (py_of_barangays bs) ->
  In b bs ->
  lower q = lower b ->
  exists resp,
    search_barangay lower (py_of_dataset D) q = Ok resp
    /\ In (mk_hit b m p r) (results resp).
Proof.
  intros Hg Hb Hl. rewrite get_barangays_dataset in Hg.
  destruct (assoc r D) as [ps|] eqn:Er; [|discriminate].
  destruct (assoc p ps) as [ms|] eqn:Ep; [|discriminate].
  destruct (assoc m ms) as [bs'|] eqn:Em; [|discriminate].
  injection Hg as Hg. apply (f_equal strings_of) in Hg.
  rewrite !strings_of_strs in Hg. subst bs'.
  assert (Hin : In (mk_hit b m p r)
                  (filter (matches lower q) (occurrences D))).
  { apply filter_In. split.
    - apply in_occurrences. exists ps, ms, bs. simpl.
      auto using assoc_In.
    - apply matches_spec. unfold Matches; simpl.
      rewrite Hl. apply Substring_refl. }
  rewrite search_barangay_dataset.
  destruct (filter (matches lower q) (occurrences D)) as [|h hs];
    [destruct Hin|].
  eexists. split; [reflexivity | exact Hin].
Qed.

Lemma listed_barangays_are_findable_witness :
  exists resp,
    search_barangay ascii_lower (py_of_dataset two_regions) "bel-air"
    = Ok resp
    /\ In (mk_hit "Bel-Air" "Makati" "Metro Manila" "NCR") (results resp).
Proof.
  apply (listed_barangays_are_findable ascii_lower two_regions
           "NCR" "Metro Manila" "Makati" "Bel-Air" "bel-air"
           ["Poblacion"; "Bel-Air"; "Poblacion"]).
  - reflexivity.
  - simpl. right. left. reflexivity.
  - reflexivity.
Defined.

(** X9.  A longer query narrows the search, on any object: when the
    lowercased [q1] occurs in the lowercased [q2], the results for [q2] are
    the results for [q1] filtered by [q2], in the same order, and a
    no-match 404 for [q1] means a no-match 404 for [q2]. *)
Theorem search_narrows_with_longer_query (lower : string -> string)
    (B : pyval) (q1 q2 : string) :
  Substring (lower q1) (lower q2) ->
  (forall r1,
     collect_results lower B q1 = Ok r1 ->
     collect_results lower B q2 = Ok (filter (matches lower q2) r1))
  /\ (search_barangay lower B q1 = Raise (no_matches q1) ->
      search_barangay lower B q2 = Raise (no_matches q2)).
Proof.
  intros Hq.
  assert (Hnarrow : forall r1,
             collect_results lower B q1 = Ok r1 ->
             collect_results lower B q2
             = Ok (filter (matches lower q2) r1)).
  { intros r1 H1.
    pose proof (collect_results_ok_guarded _ _ _ _ H1) as G.
    rewrite (collect_results_guarded lower q1 B G) in H1.
    injection H1 as <-.
    rewrite (collect_results_guarded lower q2 B G). f_equal. symmetry.
    apply filter_filter_implied. intros h. now apply matches_narrow. }
  split; [exact Hnarrow|].
  unfold search_barangay. intros H.
  destruct (collect_results lower B q1) as [r1|e] eqn:E1; simpl in H.
  - rewrite (Hnarrow r1 eq_refl). simpl.
    destruct r1; [reflexivity | discriminate].
  - destruct (guarded_shape B) eqn:G.
    + rewrite (collect_results_guarded lower q1 B G) in E1. discriminate.
    + rewrite (collect_results_raises lower B q1 G) in E1.
      injection E1 as <-. discriminate.
Qed.

Lemma search_narrows_with_longer_query_witness :
  Substring (ascii_lower "l") (ascii_lower "LA")
  /\ collect_results ascii_lower (py_of_dataset two_regions) "LA"
     = Ok (filter (matches ascii_lower "LA")
             [mk_hit "Poblacion" "Makati" "Metro Manila" "NCR";
              mk_hit "Bel-Air" "Makati" "Metro Manila" "NCR";
              mk_hit "Poblacion" "Makati" "Metro Manila" "NCR";
              mk_hit "MAKILING" "Calamba" "Laguna" "Region IV-A";
              mk_hit "Real" "Calamba" "Laguna" "Region IV-A"]).
Proof.
  assert (H : Substring (ascii_lower "l") (ascii_lower "LA"))
    by (exists "", "a"; reflexivity).
  split; [exact H|].
  apply (proj1 (search_narrows_with_longer_query ascii_lower
                  (py_of_dataset two_regions) "l" "LA" H)).
  reflexivity.
Defined.

End SearchExtras.

(** ** Search, statistics and lookups together *)

Section Together.

(** X10.  Whenever [search_barangay] returns, on any object, [get_stats]
    returns as well, the response echoes the query as given, [count] is the
    length of [results], and it lies between 1 and [total_barangays]. *)
Theorem search_count_within_stats (lower : string -> string)
    (B : pyval) (q : string)
    (resp : search_response) :
  search_barangay lower B q = Ok resp ->
  exists st,
    get_stats B = Ok st
    /\ query resp = q
    /\ count resp = List.length (results resp)
    /\ 1 <= count resp
    /\ count resp <= total_barangays st.
Proof.
  unfold search_barangay. intros H.
  destruct (collect_results lower B q) as [rs|e] eqn:E; [|discriminate].
  pose proof (collect_results_ok_guarded _ _ _ _ E) as G.
  rewrite (collect_results_guarded lower q B G) in E. injection E as <-.
  eexists. split.
  { apply get_stats_guarded. now apply guarded_regions_are_dicts. }
  simpl in *.
  rewrite (guarded_barangay_count_prune B G), <- length_occurrences.
  pose proof (filter_length_le (matches lower q) (occurrences (prune B))) as Hle.
  destruct (filter (matches lower q) (occurrences (prune B))) as [|h hs];
    [discriminate|].
  injection H as <-. simpl in *. repeat split; lia.
Qed.

Lemma search_count_within_stats_witness :
  let resp := mk_search_response "o"
                [mk_hit "Poblacion" "N" "Q" "R";
                 mk_hit "Bagong Silang" "N" "Q" "R"] 2 in
  search_barangay ascii_lower partly_malformed "o" = Ok resp
  /\ exists st,
       get_stats partly_malformed = Ok st
       /\ query resp = "o"
       /\ count resp = List.length (results resp)
       /\ 1 <= count resp
       /\ count resp <= total_barangays st.
Proof.
  split; [reflexivity|].
  exact (search_count_within_stats ascii_lower partly_malformed "o" _
           eq_refl).
Defined.

Lemma sum_over_zero {A} (f : A -> nat) (l : list A) :
  sum_over f l = 0 <-> forall x, In x l -> f x = 0.
Proof.
  induction l as [|x l IH]; simpl.
  - split; [intros _ y [] | reflexivity].
  - rewrite sum_over_cons. split.
    + intros H y [<- | Hy]; [lia | apply IH; [lia | exact Hy]].
    + intros H. rewrite (H x (or_introl eq_refl)).
      apply IH. intros y Hy. apply H. now right.
Qed.

(** X11.  The counts of [get_stats] are consistent down the levels, on any
    object it returns on: no region means no province, no province means
    no municipality, and no municipality means no barangay. *)
Theorem stats_counts_are_hierarchical (B : pyval) (st : stats) :
  get_stats B = Ok st ->
  (total_regions st = 0 -> total_provinces st = 0)
  /\ (total_provinces st = 0 -> total_municipalities st = 0)
  /\ (total_municipalities st = 0 -> total_barangays st = 0).
Proof.
  intros H.
  destruct (regions_are_dicts B) eqn:G.
  2:{ destruct B; try discriminate.
      unfold get_stats, sum_len in H; simpl in H; simpl in G.
      destruct (forallb has_len (values entries)) eqn:L.
      - destruct (sum_len_returns _ L 0) as [n Hn].
        rewrite Hn in H; simpl in H.
        rewrite (count_regions_raise _ G) in H. discriminate.
      - rewrite (sum_len_raises _ L) in H. discriminate. }
  rewrite (get_stats_guarded B G) in H. injection H as <-. simpl.
  unfold guarded_province_count, guarded_municipality_count,
    guarded_barangay_count.
  repeat split.
  - intros H0. apply length_zero_iff_nil in H0. now rewrite H0.
  - intros H0. apply sum_over_zero. intros r Hr.
    apply sum_over_zero. intros p Hp.
    pose proof (proj1 (sum_over_zero _ _) H0 r Hr) as Hz.
    unfold len_if_dict in Hz. apply length_zero_iff_nil in Hz.
    unfold values in Hp. rewrite Hz in Hp. destruct Hp.
  - intros H0. apply sum_over_zero. intros r Hr.
    apply sum_over_zero. intros p Hp.
    pose proof (proj1 (sum_over_zero _ _)
                  (proj1 (sum_over_zero _ _) H0 r Hr) p Hp) as Hz.
    unfold municipalities_in, len_if_dict in Hz.
    apply length_zero_iff_nil in Hz.
    unfold barangays_in. now rewrite Hz.
Qed.

Lemma stats_counts_are_hierarchical_witness :
  exists st,
    get_stats skipped_province = Ok st
    /\ total_municipalities st = 0
    /\ total_barangays st = 0.
Proof.
  eexists. split; [reflexivity|]. split; [reflexivity|].
  apply (proj2 (proj2 (stats_counts_are_hierarchical skipped_province
                         _ eq_refl))).
  reflexivity.
Defined.

Lemma enumerated_province_loop (D : Dataset) (t : nat) :
  dataset_keys_unique D ->
  for_each (keys D)
    (fun r total =>
       ps <- get_provinces (py_of_dataset D) r ;;
       Ok (total + List.length ps)) t
  = Ok (t + province_count D).
Proof.
  intros Huniq. apply for_each_keys_sum. intros r ps t' Hr.
  destruct (unique_in_region D Huniq _ _ Hr) as (Er & _ & _).
  rewrite get_provinces_dataset, Er. simpl.
  unfold keys. now rewrite length_map.
Qed.

Lemma enumerated_municipality_loop (D : Dataset) (t : nat) :
  dataset_keys_unique D ->
  for_each (keys D) (enumerated_municipality_in_region (py_of_dataset D)) t
  = Ok (t + municipality_count D).
Proof.
  intros Huniq. apply for_each_keys_sum. intros r ps t' Hr.
  destruct (unique_in_region D Huniq _ _ Hr) as (Er & _ & Hps).
  unfold enumerated_municipality_in_region.
  rewrite get_provinces_dataset, Er. simpl.
  apply for_each_keys_sum. intros p ms t'' Hp.
  destruct (Hps _ _ Hp) as [Ep _].
  rewrite get_municipalities_dataset, Er, Ep. simpl.
  unfold keys. now rewrite length_map.
Qed.

(** X12.  The other counts of [get_stats] agree with the lookups too: on a
    Dataset (keys pairwise distinct at every level) [total_regions] is the
    length of [get_regions], [total_provinces] the sum of the lengths of
    [get_provinces r] over the listed regions, and [total_municipalities]
    the sum of the lengths of [get_municipalities r p] over the listed
    regions and provinces. *)
Theorem stats_counts_by_enumeration (D : Dataset) :
  dataset_keys_unique D ->
  exists st rs,
    get_stats (py_of_dataset D) = Ok st
    /\ get_regions (py_of_dataset D) = Ok rs
    /\ total_regions st = List.length rs
    /\ enumerated_province_total (py_of_dataset D) = Ok (total_provinces st)
    /\ enumerated_municipality_total (py_of_dataset D)
       = Ok (total_municipalities st).
Proof.
  intros Huniq. eexists. exists (keys D).
  split; [apply get_stats_dataset|].
  split; [apply get_regions_dataset|]. simpl.
  split; [unfold region_count, keys; now rewrite length_map|].
  unfold enumerated_province_total, enumerated_municipality_total.
  rewrite get_regions_dataset. simpl.
  split.
  - now apply (enumerated_province_loop D 0).
  - now apply (enumerated_municipality_loop D 0).
Qed.

Lemma stats_counts_by_enumeration_witness :
  exists st rs,
    get_stats (py_of_dataset two_regions) = Ok st
    /\ get_regions (py_of_dataset two_regions) = Ok rs
    /\ total_regions st = List.length rs
    /\ enumerated_province_total (py_of_dataset two_regions)
       = Ok (total_provinces st)
    /\ enumerated_municipality_total (py_of_dataset two_regions)
       = Ok (total_municipalities st).
Proof.
  apply (stats_counts_by_enumeration two_regions).
  unfold dataset_keys_unique, unique_keys. simpl.
  repeat first
    [ apply conj | apply Forall_cons | apply Forall_nil
    | apply NoDup_nil
    | apply NoDup_cons; [simpl; intros Hin; decompose [or] Hin;
                         try discriminate; assumption|] ].
Defined.

(** X13.  Regions are handled independently and in order: for the Dataset
    made of the regions of [D1] followed by those of [D2], the search
    builds the results on [D1] followed by the results on [D2], and each
    count of [get_stats] is the sum of the two counts. *)
Theorem regions_are_independent (lower : string -> string)
    (D1 D2 : Dataset) (q : string) :
  (exists r1 r2,
     collect_results lower (py_of_dataset D1) q = Ok r1
     /\ collect_results lower (py_of_dataset D2) q = Ok r2
     /\ collect_results lower (py_of_dataset (D1 ++ D2)) q = Ok (r1 ++ r2))
  /\ (exists s1 s2 s,
        get_stats (py_of_dataset D1) = Ok s1
        /\ get_stats (py_of_dataset D2) = Ok s2
        /\ get_stats (py_of_dataset (D1 ++ D2)) = Ok s
        /\ total_regions s = total_regions s1 + total_regions s2
        /\ total_provinces s = total_provinces s1 + total_provinces s2
        /\ total_municipalities s
           = total_municipalities s1 + total_municipalities s2
        /\ total_barangays s = total_barangays s1 + total_barangays s2).
Proof.
  split.
  - do 2 eexists. rewrite !collect_results_dataset.
    repeat split. unfold occurrences.
    now rewrite flat_map_app, filter_app.
  - do 3 eexists. rewrite !get_stats_dataset. repeat split; simpl.
    + unfold region_count. apply length_app.
    + apply sum_over_app.
    + apply sum_over_app.
    + apply sum_over_app.
Qed.

End Together.
